(** * hermes.nappy.tools: the [Content] class

    A shallow embedding of [src/python/hermes/nappy/tools.py].  Python
    objects live in a store, so that the dictionaries and lists the class
    mutates in place are shared exactly as the interpreter shares them;
    methods are computations in a state-and-exception monad over that
    store.  The Natural Language client is an external collaborator: it is
    a pair of functions from documents to responses (or exceptions), and
    every call made to it is recorded. *)

From Stdlib Require Import ZArith Ascii String Floats.PrimFloat Lia.
From stdpp Require Import gmap list fin_maps strings.

(** ** Text and bytes *)

(** A Python [str] is a sequence of code points, a [bytes] object a sequence
    of octets. *)
Abbreviation pystr := (list Z).
Abbreviation pybytes := (list Z).

(** The [str] written as an ASCII literal in the source. *)
Definition py (s : string) : pystr :=
  (λ a, Z.of_N (N_of_ascii a)) <$> list_ascii_of_string s.

Module utf8.

Definition is_cont (b : Z) : bool := (0x80 <=? b)%Z && (b <? 0xC0)%Z.

Definition is_surrogate (c : Z) : bool := (0xD800 <=? c)%Z && (c <? 0xE000)%Z.

(** [str.encode("utf-8")]: [None] stands for [UnicodeEncodeError], which
    lone surrogates raise. *)
Definition encode_char (c : Z) : option pybytes :=
  if (c <? 0)%Z then None
  else if (c <? 0x80)%Z then Some [c]
  else if (c <? 0x800)%Z then Some [0xC0 + c / 64; 0x80 + c mod 64]%Z
  else if (c <? 0x10000)%Z then
    if is_surrogate c then None
    else Some [0xE0 + c / 4096; 0x80 + (c / 64) mod 64; 0x80 + c mod 64]%Z
  else if (c <? 0x110000)%Z then
    Some [0xF0 + c / 262144; 0x80 + (c / 4096) mod 64;
          0x80 + (c / 64) mod 64; 0x80 + c mod 64]%Z
  else None.

Fixpoint encode (s : pystr) : option pybytes :=
  match s with
  | [] => Some []
  | c :: s' =>
      match encode_char c, encode s' with
      | Some b, Some bs => Some (b ++ bs)
      | _, _ => None
      end
  end.

(** [bytes.decode('utf-8')] with the default strict error handler: [None]
    stands for [UnicodeDecodeError] (stray or missing continuation
    octets, overlong forms, surrogates, code points past U+10FFFF). *)
Fixpoint decode (bs : pybytes) : option pystr :=
  match bs with
  | [] => Some []
  | b0 :: r0 =>
      if (0 <=? b0)%Z && (b0 <? 0x80)%Z then cons b0 <$> decode r0
      else if (0xC2 <=? b0)%Z && (b0 <? 0xE0)%Z then
        match r0 with
        | b1 :: r1 =>
            if is_cont b1
            then cons ((b0 - 0xC0) * 64 + (b1 - 0x80))%Z <$> decode r1
            else None
        | _ => None
        end
      else if (0xE0 <=? b0)%Z && (b0 <? 0xF0)%Z then
        match r0 with
        | b1 :: b2 :: r2 =>
            let c := ((b0 - 0xE0) * 4096 + (b1 - 0x80) * 64 + (b2 - 0x80))%Z in
            if is_cont b1 && is_cont b2 && (0x800 <=? c)%Z && negb (is_surrogate c)
            then cons c <$> decode r2
            else None
        | _ => None
        end
      else if (0xF0 <=? b0)%Z && (b0 <? 0xF5)%Z then
        match r0 with
        | b1 :: b2 :: b3 :: r3 =>
            let c := ((b0 - 0xF0) * 262144 + (b1 - 0x80) * 4096
                      + (b2 - 0x80) * 64 + (b3 - 0x80))%Z in
            if is_cont b1 && is_cont b2 && is_cont b3
               && (0x10000 <=? c)%Z && (c <? 0x110000)%Z
            then cons c <$> decode r3
            else None
        | _ => None
        end
      else None
  end.

End utf8.

(** ** [datetime] and its [str()] *)

Record datetime := {
  year : Z; month : Z; day : Z;
  hour : Z; minute : Z; second : Z; microsecond : Z
}.

Fixpoint zero_padded (width : nat) (n : Z) : pystr :=
  match width with
  | O => []
  | S w => zero_padded w (n / 10) ++ [48 + n mod 10]%Z
  end.

(** [str(date)] of a naive [datetime]: [isoformat(sep=' ')], the fraction
    being printed only when it is not zero. *)
Definition datetime_str (d : datetime) : pystr :=
  zero_padded 4 (year d) ++ py "-" ++ zero_padded 2 (month d) ++ py "-"
  ++ zero_padded 2 (day d) ++ py " " ++ zero_padded 2 (hour d) ++ py ":"
  ++ zero_padded 2 (minute d) ++ py ":" ++ zero_padded 2 (second d)
  ++ (if (microsecond d =? 0)%Z then [] else py "." ++ zero_padded 6 (microsecond d)).

(** ** Values, objects and exceptions *)

Abbreviation loc := nat.

(** Immutable values are carried around as they are; dictionaries and lists
    are references into the store. *)
Inductive value :=
| VNone
| VBool (b : bool)
| VInt (n : Z)
| VFloat (f : float)
| VStr (s : pystr)
| VBytes (b : pybytes)
| VRef (l : loc).

Inductive obj :=
| ODict (d : gmap pystr value)
| OList (l : list value).

Inductive exn :=
| TypeError
| ValueError
| KeyError (k : pystr)
| AttributeError
| UnicodeDecodeError
| UnicodeEncodeError
| ServiceError (msg : pystr).

Inductive result (A : Type) :=
| Ok (a : A)
| Raise (e : exn).
Arguments Ok {A} a.
Arguments Raise {A} e.

(** ** The Natural Language API, [google.cloud.language] *)

Module lang.

Inductive DocumentType := PLAIN_TEXT.

Record Document := { content : value; type : DocumentType }.

Record Sentiment := { score : float; magnitude : float }.

Record TextSpan := { span_content : pystr }.

Record Sentence := { text : TextSpan; sentiment : Sentiment }.

Record AnalyzeSentimentResponse := {
  document_sentiment : Sentiment;
  sentences : list Sentence
}.

Record ClassificationCategory := { name : pystr; confidence : float }.

Record ClassifyTextResponse := { categories : list ClassificationCategory }.

(** The two operations of the client this class consumes.  A call either
    returns its response or raises. *)
Record LanguageServiceClient := {
  analyze_sentiment : Document → result AnalyzeSentimentResponse;
  classify_text : Document → result ClassifyTextResponse
}.

Inductive call :=
| AnalyzeSentiment (document : Document)
| ClassifyText (document : Document).

End lang.

(** ** State *)

(** The two slots of a [Content] object. *)
Record Content := { _source : value; _sentiment : value }.

Record state := {
  self : Content;
  heap : list obj;
  calls : list lang.call
}.

Definition M (A : Type) : Type := state → result A * state.

#[global] Instance M_ret : MRet M := λ A a st, (Ok a, st).

#[global] Instance M_bind : MBind M := λ A B f m st,
  match m st with
  | (Ok a, st') => f a st'
  | (Raise e, st') => (Raise e, st')
  end.

Definition raise {A} (e : exn) : M A := λ st, (Raise e, st).

Definition with_heap (h : list obj) (st : state) : state :=
  {| self := self st; heap := h; calls := calls st |}.

Definition with_self (c : Content) (st : state) : state :=
  {| self := c; heap := heap st; calls := calls st |}.

Definition with_call (c : lang.call) (st : state) : state :=
  {| self := self st; heap := heap st; calls := calls st ++ [c] |}.

(** *** Operations of the interpreter *)

(** A dictionary or list display: a new object. *)
Definition alloc (o : obj) : M value := λ st,
  (Ok (VRef (length (heap st))), with_heap (heap st ++ [o]) st).

(** [v[k]] with a [str] key: only a dictionary takes one. *)
Definition getitem (v : value) (k : pystr) : M value := λ st,
  match v with
  | VRef l =>
      match heap st !! l with
      | Some (ODict d) =>
          match d !! k with
          | Some x => (Ok x, st)
          | None => (Raise (KeyError k), st)
          end
      | _ => (Raise TypeError, st)
      end
  | _ => (Raise TypeError, st)
  end.

(** [v[k] = x] with a [str] key. *)
Definition setitem (v : value) (k : pystr) (x : value) : M () := λ st,
  match v with
  | VRef l =>
      match heap st !! l with
      | Some (ODict d) => (Ok (), with_heap (<[l := ODict (<[k := x]> d)]> (heap st)) st)
      | _ => (Raise TypeError, st)
      end
  | _ => (Raise TypeError, st)
  end.

(** [v.append]: the method, which only a list has, bound to its list.  It
    is looked up before the argument of the call is evaluated. *)
Definition getattr_append (v : value) : M loc := λ st,
  match v with
  | VRef l =>
      match heap st !! l with
      | Some (OList _) => (Ok l, st)
      | _ => (Raise AttributeError, st)
      end
  | _ => (Raise AttributeError, st)
  end.

(** The call of that method on [x]: the list at [l] grows by [x]. *)
Definition call_append (l : loc) (x : value) : M () := λ st,
  match heap st !! l with
  | Some (OList xs) => (Ok (), with_heap (<[l := OList (xs ++ [x])]> (heap st)) st)
  | _ => (Raise TypeError, st)
  end.

(** [len(v)] *)
Definition len (v : value) : M Z := λ st,
  match v with
  | VStr s => (Ok (Z.of_nat (length s)), st)
  | VBytes b => (Ok (Z.of_nat (length b)), st)
  | VRef l =>
      match heap st !! l with
      | Some (OList xs) => (Ok (Z.of_nat (length xs)), st)
      | Some (ODict d) => (Ok (Z.of_nat (size d)), st)
      | None => (Raise TypeError, st)
      end
  | _ => (Raise TypeError, st)
  end.

Definition isinstance_str (v : value) : bool :=
  match v with VStr _ => true | _ => false end.

(** [six.binary_type] is [bytes]. *)
Definition isinstance_binary_type (v : value) : bool :=
  match v with VBytes _ => true | _ => false end.

Definition is_dict (h : list obj) (v : value) : bool :=
  match v with
  | VRef l => match h !! l with Some (ODict _) => true | _ => false end
  | _ => false
  end.

Definition isinstance_dict (v : value) : M bool := λ st, (Ok (is_dict (heap st) v), st).

(** [v.decode('utf-8')], reached only for [bytes]. *)
Definition decode (v : value) : M value :=
  match v with
  | VBytes b =>
      match utf8.decode b with
      | Some s => mret (VStr s)
      | None => raise UnicodeDecodeError
      end
  | _ => raise AttributeError
  end.

(** [v.encode("utf-8")]: a method of [str] alone. *)
Definition encode (v : value) : M value :=
  match v with
  | VStr s =>
      match utf8.encode s with
      | Some b => mret (VBytes b)
      | None => raise UnicodeEncodeError
      end
  | _ => raise AttributeError
  end.

(** [lang.types.Document(content=v, type=t)].  [content] is a string field
    of the message.  It takes text that encodes as UTF-8 and bytes that
    are valid UTF-8, and raises [ValueError] on text or bytes that are
    not; [None] leaves the field unset, which is the empty text; a value
    of any other type raises [TypeError].  The record keeps text and bytes
    as they were passed: the field holds the one text either stands
    for. *)
Definition Document_content (v : value) : result value :=
  match v with
  | VNone => Ok (VStr [])
  | VStr s =>
      match utf8.encode s with
      | Some _ => Ok v
      | None => Raise ValueError
      end
  | VBytes b =>
      match utf8.decode b with
      | Some _ => Ok v
      | None => Raise ValueError
      end
  | _ => Raise TypeError
  end.

Definition Document_new (v : value) (t : lang.DocumentType) : M lang.Document :=
  match Document_content v with
  | Ok c => mret {| lang.content := c; lang.type := t |}
  | Raise e => raise e
  end.

Definition call_analyze_sentiment (client : lang.LanguageServiceClient)
    (document : lang.Document) : M lang.AnalyzeSentimentResponse := λ st,
  (lang.analyze_sentiment client document, with_call (lang.AnalyzeSentiment document) st).

Definition call_classify_text (client : lang.LanguageServiceClient)
    (document : lang.Document) : M lang.ClassifyTextResponse := λ st,
  (lang.classify_text client document, with_call (lang.ClassifyText document) st).

(** [for x in xs: body] *)
Fixpoint for_each {A} (xs : list A) (body : A → M ()) : M () :=
  match xs with
  | [] => mret ()
  | x :: xs' => body x;; for_each xs' body
  end.

(** ** The class *)

(** The [source] property. *)
Definition source : M value := λ st, (Ok (_source (self st)), st).

Definition source_setter (data : value) : M () :=
  b ← isinstance_dict data;
  if negb b then raise TypeError
  else λ st, (Ok (), with_self {| _source := data; _sentiment := _sentiment (self st) |} st).

(** The [sentiment] property. *)
Definition sentiment : M value := λ st, (Ok (_sentiment (self st)), st).

Definition sentiment_setter (data : value) : M () :=
  b ← isinstance_dict data;
  if negb b then raise TypeError
  else λ st, (Ok (), with_self {| _source := _source (self st); _sentiment := data |} st).

(** [[x] if isinstance(x, str) else x] *)
Definition listify (x : value) : M value :=
  if isinstance_str x then alloc (OList [x]) else mret x.

Definition __init__ (title author : value) (date : datetime)
    (url body origin tags misc : value) : M () :=
  (λ st, (Ok (), with_self {| _source := VNone; _sentiment := VNone |} st));;
  author' ← listify author;
  body' ← (if isinstance_binary_type body then decode body else mret body);
  tags' ← listify tags;
  misc' ← listify misc;
  data ← alloc (ODict {[ py "title" := title;
                         py "author" := author';
                         py "date" := VStr (datetime_str date);
                         py "url" := url;
                         py "body" := body';
                         py "origin" := origin;
                         py "tags" := tags';
                         py "misc" := misc' ]});
  source_setter data;;
  empty ← alloc (ODict ∅);
  sentiment_setter empty.

Definition sentence_entry (s : lang.Sentence) : gmap pystr value :=
  {[ py "text" := VStr (lang.span_content (lang.text s));
     py "score" := VFloat (lang.score (lang.sentiment s));
     py "magnitude" := VFloat (lang.magnitude (lang.sentiment s)) ]}.

(** [self.sentiment['content']] *)
Definition sentiment_content : M value :=
  sent ← sentiment;
  getitem sent (py "content").

Definition analyse (client : lang.LanguageServiceClient) : M () :=
  src ← source;
  body ← getitem src (py "body");
  document ← Document_new body lang.PLAIN_TEXT;
  annotations ← call_analyze_sentiment client document;
  overall ← alloc (ODict
    {[ py "score" := VFloat (lang.score (lang.document_sentiment annotations));
       py "magnitude" := VFloat (lang.magnitude (lang.document_sentiment annotations)) ]});
  sent ← sentiment;
  setitem sent (py "overall") overall;;
  content ← alloc (OList []);
  sent ← sentiment;
  setitem sent (py "content") content;;
  for_each (lang.sentences annotations) (λ s,
    append ← sentiment_content ≫= getattr_append;
    entry ← alloc (ODict (sentence_entry s));
    call_append append entry).

Definition category_entry (cat : lang.ClassificationCategory) : gmap pystr value :=
  {[ py "category" := VStr (lang.name cat);
     py "confidence" := VFloat (lang.confidence cat) ]}.

Definition no_category : gmap pystr value :=
  {[ py "category" := VStr (py ""); py "confidence" := VInt 1 ]}.

(** [self.sentiment['overall']['categories']] *)
Definition overall_categories : M value :=
  sent ← sentiment;
  overall ← getitem sent (py "overall");
  getitem overall (py "categories").

Definition classify (client : lang.LanguageServiceClient) : M () :=
  src ← source;
  body ← getitem src (py "body");
  encoded ← encode body;
  document ← Document_new encoded lang.PLAIN_TEXT;
  response ← call_classify_text client document;
  let categories := lang.categories response in
  init ← alloc (OList []);
  sent ← sentiment;
  overall ← getitem sent (py "overall");
  setitem overall (py "categories") init;;
  for_each categories (λ cat,
    append ← overall_categories ≫= getattr_append;
    entry ← alloc (ODict (category_entry cat));
    call_append append entry);;
  found ← overall_categories;
  n ← len found;
  if (n =? 0)%Z then
    append ← overall_categories ≫= getattr_append;
    entry ← alloc (ODict no_category);
    call_append append entry
  else mret ().

Definition jsonify (client : lang.LanguageServiceClient) (automagic : bool) : M value :=
  (if automagic then analyse client;; classify client else mret ());;
  src ← source;
  sent ← sentiment;
  alloc (ODict {[ py "source" := src; py "sentiment" := sent ]}).

(** [Content(title=..., ...)] in a store [h], with [cs] the calls made to
    the client so far. *)
Definition new_Content (title author : value) (date : datetime)
    (url body origin tags misc : value) (h : list obj) (cs : list lang.call)
    : result () * state :=
  __init__ title author date url body origin tags misc
    {| self := {| _source := VNone; _sentiment := VNone |}; heap := h; calls := cs |}.

(** * Reading the store *)

(** What a value looks like from outside: the nested literal it compares
    equal to. *)
#[local] Unset Elimination Schemes.
Inductive tree :=
| TNone
| TBool (b : bool)
| TInt (n : Z)
| TFloat (f : float)
| TStr (s : pystr)
| TBytes (b : pybytes)
| TList (ts : list tree)
| TDict (d : gmap pystr tree).

Inductive denotes (h : list obj) : value → tree → Prop :=
| denotes_None : denotes h VNone TNone
| denotes_Bool b : denotes h (VBool b) (TBool b)
| denotes_Int n : denotes h (VInt n) (TInt n)
| denotes_Float f : denotes h (VFloat f) (TFloat f)
| denotes_Str s : denotes h (VStr s) (TStr s)
| denotes_Bytes b : denotes h (VBytes b) (TBytes b)
| denotes_List l vs ts :
    h !! l = Some (OList vs) →
    Forall2 (denotes h) vs ts →
    denotes h (VRef l) (TList ts)
| denotes_Dict l d td :
    h !! l = Some (ODict d) →
    (∀ k, option_Forall2 (denotes h) (d !! k) (td !! k)) →
    denotes h (VRef l) (TDict td).
#[local] Set Elimination Schemes.

(** [v[k]], read without effect. *)
Definition item (h : list obj) (v : value) (k : pystr) : option value :=
  match v with
  | VRef l => match h !! l with Some (ODict d) => d !! k | _ => None end
  | _ => None
  end.

(** [v[k1][k2]...] *)
Fixpoint path (h : list obj) (v : value) (ks : list pystr) : option value :=
  match ks with
  | [] => Some v
  | k :: ks' => item h v k ≫= λ v', path h v' ks'
  end.

(** The [source] and [sentiment] properties hold dictionaries with the
    given contents. *)
Definition source_is (st : state) (d : gmap pystr value) : Prop :=
  ∃ l, _source (self st) = VRef l ∧ heap st !! l = Some (ODict d).

Definition sentiment_is (st : state) (d : gmap pystr value) : Prop :=
  ∃ l, _sentiment (self st) = VRef l ∧ heap st !! l = Some (ODict d).

(** [sentiment['overall']] is a dictionary, holding [ov]. *)
Definition overall_is (st : state) (ov : gmap pystr value) : Prop :=
  ∃ lo, item (heap st) (_sentiment (self st)) (py "overall") = Some (VRef lo)
        ∧ heap st !! lo = Some (ODict ov).

Definition sentence_tree (s : lang.Sentence) : tree :=
  TDict {[ py "text" := TStr (lang.span_content (lang.text s));
           py "score" := TFloat (lang.score (lang.sentiment s));
           py "magnitude" := TFloat (lang.magnitude (lang.sentiment s)) ]}.

Definition overall_tree (r : lang.AnalyzeSentimentResponse) : tree :=
  TDict {[ py "score" := TFloat (lang.score (lang.document_sentiment r));
           py "magnitude" := TFloat (lang.magnitude (lang.document_sentiment r)) ]}.

Definition category_tree (cat : lang.ClassificationCategory) : tree :=
  TDict {[ py "category" := TStr (lang.name cat);
           py "confidence" := TFloat (lang.confidence cat) ]}.

Definition no_category_tree : tree :=
  TDict {[ py "category" := TStr (py ""); py "confidence" := TInt 1 ]}.

Definition category_trees (r : lang.ClassifyTextResponse) : list tree :=
  match lang.categories r with
  | [] => [no_category_tree]
  | cats => category_tree <$> cats
  end.

(** * The states the methods leave *)

(** The references [n], [n+1], ..., [n+k-1]. *)
Definition refs_from (n k : nat) : list value := VRef <$> seq n k.

(** [st] has the slots of [st0] and every object of [st0], save perhaps
    the one at [lc], as it was. *)
Definition preserved_except (lc : loc) (st0 st : state) : Prop :=
  self st = self st0 ∧
  ∀ l o, l ≠ lc → heap st0 !! l = Some o → heap st !! l = Some o.

(** The expression [rd] evaluates to the object at [lc], whatever becomes
    of that object and whatever is allocated. *)
Definition resolves (rd : M value) (lc : loc) (st0 : state) : Prop :=
  ∀ st, preserved_except lc st0 st → rd st = (Ok (VRef lc), st).

(** [st'] has the slots of [st], and its store is that of [st] with new
    objects after it, if any. *)
Definition only_grown (st st' : state) : Prop :=
  self st' = self st ∧ ∃ extra, heap st' = heap st ++ extra.

(** From [st] to [st'] no list of the store has changed, and no dictionary
    but at the keys [ks]; and no dictionary at all but the one [target]
    refers to, if it does to one. *)
Definition changed_only (target : option value) (ks : list pystr) (st st' : state) : Prop :=
  (∀ l xs, heap st !! l = Some (OList xs) → heap st' !! l = Some (OList xs)) ∧
  (∀ l d, heap st !! l = Some (ODict d) →
     ∃ d', heap st' !! l = Some (ODict d') ∧
           (∀ k, k ∉ ks → d' !! k = d !! k) ∧
           (target ≠ Some (VRef l) → d' = d)).

Definition overall_entry (r : lang.AnalyzeSentimentResponse) : gmap pystr value :=
  {[ py "score" := VFloat (lang.score (lang.document_sentiment r));
     py "magnitude" := VFloat (lang.magnitude (lang.document_sentiment r)) ]}.

(** The state [analyse] leaves behind, when the sentiment dictionary is the
    object at [lt], holding [dt], and the client answers [r] to
    [document]. *)
Definition analysed (lt : loc) (dt : gmap pystr value) (document : lang.Document)
    (r : lang.AnalyzeSentimentResponse) (st : state) : state :=
  let n := length (heap st) in
  let dt' := <[py "content" := VRef (S n)]> (<[py "overall" := VRef n]> dt) in
  let h := <[lt := ODict dt']>
             (<[lt := ODict (<[py "overall" := VRef n]> dt)]>
                (heap st ++ [ODict (overall_entry r)]) ++ [OList []]) in
  {| self := self st;
     heap := <[S n := OList (refs_from (S (S n)) (length (lang.sentences r)))]> h
             ++ (ODict ∘ sentence_entry <$> lang.sentences r);
     calls := calls st ++ [lang.AnalyzeSentiment document] |}.

(** The entries of [categories] once [classify] is through: one per
    category of the response, or the stand-in when there is none. *)
Definition category_entries (r : lang.ClassifyTextResponse) : list (gmap pystr value) :=
  match lang.categories r with
  | [] => [no_category]
  | cats => category_entry <$> cats
  end.

(** The state [classify] leaves behind, when [sentiment['overall']] is the
    object at [lo], holding [ov], and the client answers [r] to
    [document]. *)
Definition classified (lo : loc) (ov : gmap pystr value) (document : lang.Document)
    (r : lang.ClassifyTextResponse) (st : state) : state :=
  let n := length (heap st) in
  let h := <[lo := ODict (<[py "categories" := VRef n]> ov)]> (heap st ++ [OList []]) in
  {| self := self st;
     heap := <[n := OList (refs_from (S n) (length (category_entries r)))]> h
             ++ (ODict <$> category_entries r);
     calls := calls st ++ [lang.ClassifyText document] |}.

Definition listified (x : value) (n : loc) : value :=
  if isinstance_str x then VRef n else x.

Definition listify_objs (x : value) : list obj :=
  if isinstance_str x then [OList [x]] else [].

(** The [body] as it is stored, unless decoding fails. *)
Definition decoded (body : value) : option value :=
  match body with
  | VBytes b => VStr <$> utf8.decode b
  | _ => Some body
  end.

(** The store once the three lists of the constructor are made. *)
Definition init_heap (author tags misc : value) (h : list obj) : list obj :=
  ((h ++ listify_objs author) ++ listify_objs tags) ++ listify_objs misc.

(** The source dictionary of the new object. *)
Definition constructed_source (title author : value) (date : datetime)
    (url origin tags misc : value) (h : list obj) (body' : value) : gmap pystr value :=
  {[ py "title" := title;
     py "author" := listified author (length h);
     py "date" := VStr (datetime_str date);
     py "url" := url;
     py "body" := body';
     py "origin" := origin;
     py "tags" := listified tags (length (h ++ listify_objs author));
     py "misc" := listified misc (length ((h ++ listify_objs author) ++ listify_objs tags)) ]}.

(** The new object and the store it is in. *)
Definition constructed (title author : value) (date : datetime)
    (url origin tags misc : value) (h : list obj) (cs : list lang.call)
    (body' : value) : state :=
  {| self := {| _source := VRef (length (init_heap author tags misc h));
                _sentiment := VRef (S (length (init_heap author tags misc h))) |};
     heap := init_heap author tags misc h
             ++ [ODict (constructed_source title author date url origin tags misc h body');
                 ODict ∅];
     calls := cs |}.

(** * The contract, in definitions *)

(** [jsonify] by hand: [analyse], then [classify], then the mapping of the
    two properties. *)
Definition analyse_classify_read (client : lang.LanguageServiceClient) : M value :=
  analyse client;;
  classify client;;
  src ← source;
  sent ← sentiment;
  alloc (ODict {[ py "source" := src; py "sentiment" := sent ]}).

(** What a setter owes, with its getter: it refuses whatever is not a
    dictionary, changing nothing, and stores a dictionary as it is. *)
Definition setter_contract (setter : value → M ()) (getter : M value)
    (other : M value) (v : value) (st : state) : Prop :=
  ((∃ st', setter v st = (Raise TypeError, st')) ↔ is_dict (heap st) v = false) ∧
  (is_dict (heap st) v = false → setter v st = (Raise TypeError, st)) ∧
  (is_dict (heap st) v = true →
     ∃ st', setter v st = (Ok (), st') ∧
            getter st' = (Ok v, st') ∧
            heap st' = heap st ∧
            fst (other st') = fst (other st) ∧
            calls st' = calls st).

(** A field given as [given] and found as [stored] in the new object's
    source: text has become a new list of that one text; a list of the
    store is there as the same object, which still holds what it held;
    and whatever is no text, a list or not, is there as it was given. *)
Definition normalised (h : list obj) (st : state) (stored given : value) : Prop :=
  (∀ s, given = VStr s →
     ∃ l, stored = VRef l ∧ h !! l = None ∧ heap st !! l = Some (OList [VStr s])) ∧
  (∀ l xs, given = VRef l → h !! l = Some (OList xs) →
     stored = VRef l ∧ heap st !! l = Some (OList xs)) ∧
  (isinstance_str given = false → stored = given).

#[local] Set Warnings "-inexact-float".

(** The answer of the sentiment service in the example of the
    specification. *)
Definition good_response : lang.AnalyzeSentimentResponse :=
  {| lang.document_sentiment := {| lang.score := 0.5; lang.magnitude := 0.8 |};
     lang.sentences :=
       [ {| lang.text := {| lang.span_content := py "Good." |};
            lang.sentiment := {| lang.score := 0.9; lang.magnitude := 0.9 |} |} ] |}.

(** The document [analyse] sends for a text body. *)
Definition text_document (body : pystr) : lang.Document :=
  {| lang.content := VStr body; lang.type := lang.PLAIN_TEXT |}.

(** The document [classify] sends: the body encoded. *)
Definition bytes_document (encoded : pybytes) : lang.Document :=
  {| lang.content := VBytes encoded; lang.type := lang.PLAIN_TEXT |}.

Definition slots_are_dicts (st : state) : Prop :=
  is_dict (heap st) (_source (self st)) = true ∧
  is_dict (heap st) (_sentiment (self st)) = true.

(** A computation that leaves the slots alone and every dictionary a
    dictionary, however it ends. *)
Definition steady {A} (m : M A) : Prop :=
  ∀ st, self (snd (m st)) = self st ∧
        ∀ v, is_dict (heap st) v = true → is_dict (heap (snd (m st))) v = true.

Create HintDb steady discriminated.

(** A computation that does not call the client, however it ends. *)
Definition quiet {A} (m : M A) : Prop :=
  ∀ st, calls (snd (m st)) = calls st.

Create HintDb quiet discriminated.

(** * Worked objects *)

Definition example_date : datetime :=
  {| year := 2018; month := 5; day := 17;
     hour := 9; minute := 30; second := 0; microsecond := 0 |}.

(** A store with one list in it, to be passed as [tags]. *)
Definition example_store : list obj := [OList [VStr (py "news"); VStr (py "press")]].

(** [Content(title="Report", author="Ann", date=..., url=..., body=b"Good.",
    origin="web", tags=<the list>, misc="")] *)
Definition example_new : result () * state :=
  new_Content (VStr (py "Report")) (VStr (py "Ann")) example_date
    (VStr (py "https://example.org/report")) (VBytes (py "Good."))
    (VStr (py "web")) (VRef 0) (VStr (py "")) example_store [].

Definition example : state := snd example_new.

(** A client that answers the example response, and no category. *)
Definition mock : lang.LanguageServiceClient :=
  {| lang.analyze_sentiment _ := Ok good_response;
     lang.classify_text _ := Ok {| lang.categories := [] |} |}.

(** A client that answers two categories. *)
Definition mock_topics : lang.LanguageServiceClient :=
  {| lang.analyze_sentiment _ := Ok good_response;
     lang.classify_text _ :=
       Ok {| lang.categories :=
               [ {| lang.name := py "/News"; lang.confidence := 0.75 |};
                 {| lang.name := py "/Science"; lang.confidence := 0.5 |} ] |} |}.

(** A client whose service is down. *)
Definition unavailable : lang.LanguageServiceClient :=
  {| lang.analyze_sentiment _ := Raise (ServiceError (py "unavailable"));
     lang.classify_text _ := Raise (ServiceError (py "unavailable")) |}.

(** An answer without a sentence, and a client that gives it. *)
Definition no_sentence : lang.AnalyzeSentimentResponse :=
  {| lang.document_sentiment := {| lang.score := 0; lang.magnitude := 0 |};
     lang.sentences := [] |}.

Definition speechless : lang.LanguageServiceClient :=
  {| lang.analyze_sentiment _ := Ok no_sentence;
     lang.classify_text _ := Ok {| lang.categories := [] |} |}.

(** The two categories [mock_topics] answers. *)
Definition two_topics : lang.ClassifyTextResponse :=
  {| lang.categories :=
       [ {| lang.name := py "/News"; lang.confidence := 0.75 |};
         {| lang.name := py "/Science"; lang.confidence := 0.5 |} ] |}.

(** The worked object once [obj.sentiment = {"note": "draft"}] has been
    assigned. *)
Definition example_noted : state :=
  snd ((note ← alloc (ODict {[ py "note" := VStr (py "draft") ]});
        sentiment_setter note) example).

(** The worked object once [obj.source = {}] has emptied its source. *)
Definition example_emptied : state :=
  snd ((empty ← alloc (ODict ∅); source_setter empty) example).

(** Objects made with a body that is no text: [None], and a lone
    surrogate. *)
Definition example_bodiless : state :=
  snd (new_Content (VStr (py "Report")) (VStr (py "Ann")) example_date
         (VStr (py "https://example.org/report")) VNone
         (VStr (py "web")) (VRef 0) (VStr (py "")) example_store []).

Definition example_surrogate : state :=
  snd (new_Content (VStr (py "Report")) (VStr (py "Ann")) example_date
         (VStr (py "https://example.org/report")) (VStr [0xD800%Z])
         (VStr (py "web")) (VRef 0) (VStr (py "")) example_store []).

(** A client that analyses and cannot classify. *)
Definition half_way : lang.LanguageServiceClient :=
  {| lang.analyze_sentiment _ := Ok good_response;
     lang.classify_text _ := Raise (ServiceError (py "unavailable")) |}.

Definition example_analysed : state := snd (analyse mock example).

Definition example_classified : state := snd (classify mock example_analysed).

(** * UTF-8 *)

Ltac decide_bounds :=
  repeat match goal with
         | |- context [(?a <? ?b)%Z] => destruct (Z.ltb_spec a b); try (Z.div_mod_to_equations; lia)
         | |- context [(?a <=? ?b)%Z] => destruct (Z.leb_spec a b); try (Z.div_mod_to_equations; lia)
         end.

Lemma utf8_is_cont b : utf8.is_cont b = true → (0x80 ≤ b < 0xC0)%Z.
Proof. unfold utf8.is_cont. intros [?%Z.leb_le ?%Z.ltb_lt]%andb_prop. lia. Qed.

(** Text decoded from bytes encodes back to those bytes: decoding accepts
    one form only of each code point, and never a surrogate. *)
Lemma utf8_decode_encode bs s : utf8.decode bs = Some s → utf8.encode s = Some bs.
Proof.
  revert s. induction bs as [bs IH] using (induction_ltof1 _ (@length Z)).
  unfold ltof in IH. intros s. destruct bs as [|b0 r0]; [by intros [= <-]|].
  cbn [utf8.decode].
  destruct ((0 <=? b0)%Z && (b0 <? 0x80)%Z) eqn:H1.
  { apply andb_prop in H1 as [?%Z.leb_le ?%Z.ltb_lt].
    destruct (utf8.decode r0) as [s'|] eqn:Hd; [|done]. intros [= <-].
    cbn [utf8.encode]. rewrite (IH r0) with (s := s') by (done || (simpl; lia)).
    unfold utf8.encode_char. by decide_bounds. }
  destruct ((0xC2 <=? b0)%Z && (b0 <? 0xE0)%Z) eqn:H2.
  { apply andb_prop in H2 as [?%Z.leb_le ?%Z.ltb_lt].
    destruct r0 as [|b1 r1]; [done|].
    destruct (utf8.is_cont b1) eqn:Hc1; [|done]. apply utf8_is_cont in Hc1.
    destruct (utf8.decode r1) as [s'|] eqn:Hd; [|done]. intros [= <-].
    cbn [utf8.encode]. rewrite (IH r1) with (s := s') by (done || (simpl; lia)).
    unfold utf8.encode_char. decide_bounds. simpl. do 3 f_equal; Z.div_mod_to_equations; lia. }
  destruct ((0xE0 <=? b0)%Z && (b0 <? 0xF0)%Z) eqn:H3.
  { apply andb_prop in H3 as [?%Z.leb_le ?%Z.ltb_lt].
    destruct r0 as [|b1 [|b2 r2]]; [done..|]. cbv zeta.
    destruct (utf8.is_cont b1) eqn:Hc1; [|done]. apply utf8_is_cont in Hc1.
    destruct (utf8.is_cont b2) eqn:Hc2; [|done]. apply utf8_is_cont in Hc2.
    cbn [andb].
    destruct (0x800 <=? _)%Z eqn:Hmin; [|done]. apply Z.leb_le in Hmin.
    cbn [andb].
    destruct (utf8.is_surrogate _) eqn:Hsur; [done|]. cbn [negb].
    destruct (utf8.decode r2) as [s'|] eqn:Hd; [|done]. intros [= <-].
    cbn [utf8.encode]. rewrite (IH r2) with (s := s') by (done || (simpl; lia)).
    unfold utf8.encode_char. rewrite Hsur. decide_bounds. simpl.
    do 4 f_equal; Z.div_mod_to_equations; lia. }
  destruct ((0xF0 <=? b0)%Z && (b0 <? 0xF5)%Z) eqn:H4; [|done].
  apply andb_prop in H4 as [?%Z.leb_le ?%Z.ltb_lt].
  destruct r0 as [|b1 [|b2 [|b3 r3]]]; [done..|]. cbv zeta.
  destruct (utf8.is_cont b1) eqn:Hc1; [|done]. apply utf8_is_cont in Hc1.
  destruct (utf8.is_cont b2) eqn:Hc2; [|done]. apply utf8_is_cont in Hc2.
  destruct (utf8.is_cont b3) eqn:Hc3; [|done]. apply utf8_is_cont in Hc3.
  cbn [andb].
  destruct (0x10000 <=? _)%Z eqn:Hmin; [|done]. apply Z.leb_le in Hmin.
  cbn [andb].
  destruct (_ <? 0x110000)%Z eqn:Hmax; [|done]. apply Z.ltb_lt in Hmax.
  destruct (utf8.decode r3) as [s'|] eqn:Hd; [|done]. intros [= <-].
  cbn [utf8.encode]. rewrite (IH r3) with (s := s') by (done || (simpl; lia)).
  unfold utf8.encode_char. decide_bounds. simpl.
  do 5 f_equal; Z.div_mod_to_equations; lia.
Qed.

(** What encodes decodes back: the forms [encode_char] writes are the
    ones [decode] accepts. *)
Lemma utf8_encode_decode s bs : utf8.encode s = Some bs → utf8.decode bs = Some s.
Proof.
  revert bs. induction s as [|c s' IH]; intros bs; [by intros [= <-]|].
  cbn [utf8.encode].
  destruct (utf8.encode_char c) as [b|] eqn:Hc; [|done].
  destruct (utf8.encode s') as [bs'|]; [|done]. intros [= <-].
  specialize (IH bs' eq_refl).
  unfold utf8.encode_char in Hc.
  destruct (Z.ltb_spec c 0); [done|].
  destruct (Z.ltb_spec c 0x80).
  { injection Hc as <-. cbn [app utf8.decode]. rewrite IH.
    destruct (Z.leb_spec 0 c); [|lia]. by destruct (Z.ltb_spec c 0x80); [|lia]. }
  destruct (Z.ltb_spec c 0x800).
  { injection Hc as <-. cbn [app utf8.decode]. rewrite IH. unfold utf8.is_cont.
    assert (2 ≤ c / 64 < 32 ∧ 0 ≤ c mod 64 < 64)%Z as [??]
      by (Z.div_mod_to_equations; lia).
    assert ((192 + c / 64 - 192) * 64 + (128 + c mod 64 - 128) = c)%Z as ->
      by (Z.div_mod_to_equations; lia).
    repeat match goal with
    | |- context [(?a <? ?b)%Z] => destruct (Z.ltb_spec a b); try lia
    | |- context [(?a <=? ?b)%Z] => destruct (Z.leb_spec a b); try lia
    end. done. }
  destruct (Z.ltb_spec c 0x10000).
  { destruct (utf8.is_surrogate c) eqn:Hsur; [done|].
    injection Hc as <-. cbn [app utf8.decode]. rewrite IH. unfold utf8.is_cont. cbv zeta.
    assert (0 ≤ c / 4096 < 16 ∧ 0 ≤ (c / 64) mod 64 < 64 ∧ 0 ≤ c mod 64 < 64)%Z as (?&?&?)
      by (Z.div_mod_to_equations; lia).
    assert ((224 + c / 4096 - 224) * 4096 + (128 + (c / 64) mod 64 - 128) * 64
            + (128 + c mod 64 - 128) = c)%Z as ->
      by (Z.div_mod_to_equations; lia).
    rewrite Hsur.
    repeat match goal with
    | |- context [(?a <? ?b)%Z] => destruct (Z.ltb_spec a b); try lia
    | |- context [(?a <=? ?b)%Z] => destruct (Z.leb_spec a b); try lia
    end. done. }
  destruct (Z.ltb_spec c 0x110000); [|done].
  injection Hc as <-. cbn [app utf8.decode]. rewrite IH. unfold utf8.is_cont. cbv zeta.
  assert (0 ≤ c / 262144 < 5 ∧ 0 ≤ (c / 4096) mod 64 < 64
          ∧ 0 ≤ (c / 64) mod 64 < 64 ∧ 0 ≤ c mod 64 < 64)%Z as (?&?&?&?)
    by (Z.div_mod_to_equations; lia).
  assert ((240 + c / 262144 - 240) * 262144 + (128 + (c / 4096) mod 64 - 128) * 4096
          + (128 + (c / 64) mod 64 - 128) * 64 + (128 + c mod 64 - 128) = c)%Z as ->
    by (Z.div_mod_to_equations; lia).
  repeat match goal with
  | |- context [(?a <? ?b)%Z] => destruct (Z.ltb_spec a b); try lia
  | |- context [(?a <=? ?b)%Z] => destruct (Z.leb_spec a b); try lia
  end. done.
Qed.

(** * Reasoning about runs *)

(** ** One step at a time *)

Section steps.
Context {A B : Type}.
Implicit Types (m : M A) (f : A → M B) (st : state).

Lemma bind_ok m f st a st' : m st = (Ok a, st') → (m ≫= f) st = f a st'.
Proof. intros H. unfold mbind, M_bind. by rewrite H. Qed.

Lemma bind_raise m f st e st' : m st = (Raise e, st') → (m ≫= f) st = (Raise e, st').
Proof. intros H. unfold mbind, M_bind. by rewrite H. Qed.

End steps.

Lemma bind_assoc {A B C} (m : M A) (f : A → M B) (g : B → M C) st :
  ((m ≫= f) ≫= g) st = (m ≫= (λ a, f a ≫= g)) st.
Proof. unfold mbind, M_bind. by destruct (m st) as [[a|e] st']. Qed.

Lemma with_heap_id st : with_heap (heap st) st = st.
Proof. by destruct st. Qed.

Lemma getitem_ok st l d k x :
  heap st !! l = Some (ODict d) → d !! k = Some x →
  getitem (VRef l) k st = (Ok x, st).
Proof. intros Hl Hk. unfold getitem. by rewrite Hl, Hk. Qed.

Lemma getitem_missing st l d k :
  heap st !! l = Some (ODict d) → d !! k = None →
  getitem (VRef l) k st = (Raise (KeyError k), st).
Proof. intros Hl Hk. unfold getitem. by rewrite Hl, Hk. Qed.

Lemma setitem_ok st l d k x :
  heap st !! l = Some (ODict d) →
  setitem (VRef l) k x st
  = (Ok (), with_heap (<[l := ODict (<[k := x]> d)]> (heap st)) st).
Proof. intros Hl. unfold setitem. by rewrite Hl. Qed.

Lemma getattr_append_ok st l xs :
  heap st !! l = Some (OList xs) → getattr_append (VRef l) st = (Ok l, st).
Proof. intros Hl. unfold getattr_append. by rewrite Hl. Qed.

Lemma call_append_ok st l xs x :
  heap st !! l = Some (OList xs) →
  call_append l x st
  = (Ok (), with_heap (<[l := OList (xs ++ [x])]> (heap st)) st).
Proof. intros Hl. unfold call_append. by rewrite Hl. Qed.

Lemma len_list st l xs :
  heap st !! l = Some (OList xs) → len (VRef l) st = (Ok (Z.of_nat (length xs)), st).
Proof. intros Hl. unfold len. by rewrite Hl. Qed.

(** ** The store *)

Lemma length_refs_from n k : length (refs_from n k) = k.
Proof. unfold refs_from. by rewrite length_fmap, length_seq. Qed.

Lemma lookup_refs_from n k i : i < k → refs_from n k !! i = Some (VRef (n + i)).
Proof.
  intros Hi. unfold refs_from. rewrite list_lookup_fmap.
  by rewrite lookup_seq_lt.
Qed.

Lemma preserved_except_refl lc st : preserved_except lc st st.
Proof. by split. Qed.

(** [for x in xs: <rd>.append({...})], where [rd] is re-evaluated on each
    turn: the list grows by one new dictionary per element, in order. *)
Lemma for_each_append {A} (mk : A → gmap pystr value) (rd : M value) lc st0 xs :
  resolves rd lc st0 →
  ∀ st pre,
    preserved_except lc st0 st →
    heap st !! lc = Some (OList pre) →
    for_each xs (λ x, append ← rd ≫= getattr_append;
                      entry ← alloc (ODict (mk x));
                      call_append append entry) st
    = (Ok (), with_heap
                (<[lc := OList (pre ++ refs_from (length (heap st)) (length xs))]> (heap st)
                 ++ (ODict ∘ mk <$> xs)) st).
Proof.
  intros Hrd. induction xs as [|x xs IH]; intros st pre Hpres Hlc.
  - simpl. unfold mret, M_ret. f_equal.
    rewrite !app_nil_r, list_insert_id by done. by rewrite with_heap_id.
  - assert (lc < length (heap st)) as Hlt by by eapply lookup_lt_Some.
    cbn [for_each].
    erewrite bind_ok; last first.
    { erewrite bind_ok; last first.
      { erewrite bind_ok; last by apply Hrd. by eapply getattr_append_ok. }
      erewrite bind_ok; last done.
      eapply call_append_ok. simpl. by rewrite lookup_app_l. }
    erewrite IH; last first.
    { simpl. apply list_lookup_insert_eq. rewrite length_app. lia. }
    { destruct Hpres as [Hself Hobjs]. split; [done|].
      intros l o Hne Hl. simpl.
      rewrite list_lookup_insert_ne by done.
      apply lookup_app_l_Some. by apply Hobjs. }
    unfold with_heap. simpl. f_equal. f_equal.
    rewrite length_insert, length_app. simpl.
    rewrite list_insert_insert_eq.
    rewrite insert_app_l by done.
    rewrite <- !app_assoc. simpl.
    by replace (length (heap st) + 1) with (S (length (heap st))) by lia.
Qed.

Lemma lookup_insert_app_lt (h t : list obj) (i l : loc) (o : obj) :
  l < length h → l ≠ i → (<[i := o]> h ++ t) !! l = h !! l.
Proof.
  intros Hl Hne. rewrite lookup_app_l by by rewrite length_insert.
  by rewrite list_lookup_insert_ne.
Qed.

Lemma lookup_insert_app_eq (h t : list obj) (i : loc) (o : obj) :
  i < length h → (<[i := o]> h ++ t) !! i = Some o.
Proof.
  intros Hi. rewrite lookup_app_l by by rewrite length_insert.
  by apply list_lookup_insert_eq.
Qed.

(** ** [analyse] *)

Lemma Document_new_ok v c t st :
  Document_content v = Ok c →
  Document_new v t st = (Ok {| lang.content := c; lang.type := t |}, st).
Proof. intros Hc. unfold Document_new. by rewrite Hc. Qed.

Lemma Document_content_text s b :
  utf8.encode s = Some b → Document_content (VStr s) = Ok (VStr s).
Proof. intros Hs. simpl. by rewrite Hs. Qed.

Lemma Document_content_bytes b s :
  utf8.decode b = Some s → Document_content (VBytes b) = Ok (VBytes b).
Proof. intros Hb. simpl. by rewrite Hb. Qed.

Section analyse_run.
Context (client : lang.LanguageServiceClient) (st : state).
Context (ls lt : loc) (src dt : gmap pystr value) (body content : value).
Hypothesis Hsource : _source (self st) = VRef ls.
Hypothesis Hsrc : heap st !! ls = Some (ODict src).
Hypothesis Hbody : src !! py "body" = Some body.
Hypothesis Hcontent : Document_content body = Ok content.
Hypothesis Hsentiment : _sentiment (self st) = VRef lt.
Hypothesis Hdt : heap st !! lt = Some (ODict dt).

Let document := {| lang.content := content; lang.type := lang.PLAIN_TEXT |}.

Lemma analyse_raises e :
  lang.analyze_sentiment client document = Raise e →
  analyse client st = (Raise e, with_call (lang.AnalyzeSentiment document) st).
Proof using Hsource Hsrc Hbody Hcontent.
  intros Hr. unfold document in Hr. unfold analyse.
  erewrite bind_ok; last done. rewrite Hsource.
  erewrite bind_ok; last by eapply getitem_ok.
  erewrite bind_ok; last by apply Document_new_ok.
  erewrite bind_raise; last by (unfold call_analyze_sentiment; rewrite Hr).
  done.
Qed.

Lemma analyse_returns r :
  lang.analyze_sentiment client document = Ok r →
  analyse client st = (Ok (), analysed lt dt document r st).
Proof using All.
  intros Hr. unfold document in Hr. unfold analyse.
  assert (lt < length (heap st)) as Hlt by by eapply lookup_lt_Some.
  erewrite bind_ok; last done. rewrite Hsource.
  erewrite bind_ok; last by eapply getitem_ok.
  erewrite bind_ok; last by apply Document_new_ok.
  erewrite bind_ok; last by (unfold call_analyze_sentiment; rewrite Hr).
  erewrite bind_ok; last done.
  erewrite bind_ok; last done. simpl. rewrite Hsentiment.
  erewrite bind_ok; last first.
  { eapply setitem_ok. simpl. by rewrite lookup_app_l. }
  erewrite bind_ok; last done.
  erewrite bind_ok; last done. simpl. rewrite Hsentiment.
  erewrite bind_ok; last first.
  { eapply setitem_ok. simpl. rewrite lookup_app_l by (rewrite length_insert, length_app; lia).
    apply list_lookup_insert_eq. rewrite length_app. lia. }
  simpl. rewrite length_insert, length_app. simpl.
  replace (length (heap st) + 1) with (S (length (heap st))) by lia.
  match goal with |- for_each _ _ ?s = _ => set (st1 := s) end.
  assert (length (heap st1) = S (S (length (heap st)))) as Hlen.
  { subst st1. simpl. rewrite length_insert, length_app, length_insert, length_app. simpl. lia. }
  assert (resolves sentiment_content (S (length (heap st))) st1) as Hres.
  { intros st2 [Hself Hobjs]. unfold sentiment_content.
    erewrite bind_ok; last done. rewrite Hself. simpl. rewrite Hsentiment.
    eapply getitem_ok.
    - apply Hobjs; [lia|]. subst st1. simpl.
      apply list_lookup_insert_eq.
      rewrite length_app, length_insert, length_app. lia.
    - apply lookup_insert_eq. }
  erewrite (for_each_append sentence_entry sentiment_content (S (length (heap st))) st1
              (lang.sentences r) Hres st1 []); first last.
  - subst st1. simpl. rewrite list_lookup_insert_ne by lia.
    rewrite lookup_app_r by (rewrite length_insert, length_app; simpl; lia).
    rewrite length_insert, length_app. simpl.
    by replace (S (length (heap st)) - (length (heap st) + 1)) with 0 by lia.
  - apply preserved_except_refl.
  - rewrite Hlen. by subst st1.
Qed.

End analyse_run.

Section analysed_facts.
Context (lt : loc) (dt : gmap pystr value) (document : lang.Document).
Context (r : lang.AnalyzeSentimentResponse) (st : state).
Hypothesis Hlt : lt < length (heap st).

Let n := length (heap st).
Let st' := analysed lt dt document r st.

Lemma analysed_self : self st' = self st.
Proof. done. Qed.

Lemma analysed_calls : calls st' = calls st ++ [lang.AnalyzeSentiment document].
Proof. done. Qed.

Lemma analysed_frame l :
  l < n → l ≠ lt → heap st' !! l = heap st !! l.
Proof using Hlt.
  intros Hl Hne. subst st' n. unfold analysed. cbn [heap].
  rewrite lookup_insert_app_lt; [|rewrite length_insert, length_app, length_insert, length_app; lia|lia].
  rewrite list_lookup_insert_ne by done.
  rewrite lookup_app_l by (rewrite length_insert, length_app; lia).
  rewrite list_lookup_insert_ne by done.
  by rewrite lookup_app_l.
Qed.

Lemma analysed_sentiment :
  heap st' !! lt
  = Some (ODict (<[py "content" := VRef (S n)]> (<[py "overall" := VRef n]> dt))).
Proof using Hlt.
  subst st' n. unfold analysed. cbn [heap].
  rewrite lookup_insert_app_lt; [|rewrite length_insert, length_app, length_insert, length_app; lia|lia].
  apply list_lookup_insert_eq.
  rewrite length_app, length_insert, length_app. lia.
Qed.

Lemma analysed_overall : heap st' !! n = Some (ODict (overall_entry r)).
Proof using Hlt.
  subst st' n. unfold analysed. cbn [heap].
  rewrite lookup_insert_app_lt; [|rewrite length_insert, length_app, length_insert, length_app; simpl; lia|lia].
  rewrite list_lookup_insert_ne by lia.
  rewrite lookup_app_l by (rewrite length_insert, length_app; simpl; lia).
  rewrite list_lookup_insert_ne by lia.
  rewrite lookup_app_r by lia.
  by replace (length (heap st) - length (heap st)) with 0 by lia.
Qed.

Lemma analysed_content :
  heap st' !! S n
  = Some (OList (refs_from (S (S n)) (length (lang.sentences r)))).
Proof.
  subst st' n. unfold analysed. cbn [heap].
  apply lookup_insert_app_eq.
  rewrite length_insert, length_app, length_insert, length_app. simpl. lia.
Qed.

Lemma analysed_entry i s :
  lang.sentences r !! i = Some s →
  heap st' !! (S (S n) + i) = Some (ODict (sentence_entry s)).
Proof.
  intros Hi. subst st' n. unfold analysed. cbn [heap].
  rewrite lookup_app_r;
    rewrite !length_insert, length_app, length_insert, length_app; simpl; [|lia].
  replace (S (S (length (heap st) + i)) - (length (heap st) + 1 + 1)) with i by lia.
  rewrite list_lookup_fmap. by rewrite Hi.
Qed.

End analysed_facts.

(** ** What the store reads as *)

(** Dictionary displays of the same keys, entry by entry. *)
Ltac dict_denotes :=
  let k := fresh "k" in
  intros k;
  repeat (rewrite !lookup_insert; case_decide; [by repeat constructor|]);
  rewrite ?lookup_singleton;
  repeat (case_decide; [by repeat constructor|]);
  rewrite ?lookup_empty; by repeat constructor.

Lemma denotes_sentence_entry h l s :
  h !! l = Some (ODict (sentence_entry s)) → denotes h (VRef l) (sentence_tree s).
Proof. intros Hl. eapply denotes_Dict; [done|]. unfold sentence_entry. dict_denotes. Qed.

Lemma denotes_overall_entry h l r :
  h !! l = Some (ODict (overall_entry r)) → denotes h (VRef l) (overall_tree r).
Proof. intros Hl. eapply denotes_Dict; [done|]. unfold overall_entry. dict_denotes. Qed.

Lemma denotes_category_entry h l cat :
  h !! l = Some (ODict (category_entry cat)) → denotes h (VRef l) (category_tree cat).
Proof. intros Hl. eapply denotes_Dict; [done|]. unfold category_entry. dict_denotes. Qed.

Lemma denotes_no_category h l :
  h !! l = Some (ODict no_category) → denotes h (VRef l) no_category_tree.
Proof. intros Hl. eapply denotes_Dict; [done|]. unfold no_category. dict_denotes. Qed.

(** A list of references to consecutive new objects. *)
Lemma Forall2_refs_from {A} (P : value → A → Prop) (h : list obj)
    (f : A → obj) n (xs : list A) :
  (∀ i x, xs !! i = Some x → h !! (n + i) = Some (f x)) →
  (∀ l x, h !! l = Some (f x) → P (VRef l) x) →
  Forall2 P (refs_from n (length xs)) xs.
Proof.
  intros Hobjs HP. apply Forall2_same_length_lookup_2.
  { by rewrite length_refs_from. }
  intros i v x Hv Hx.
  rewrite lookup_refs_from in Hv by by eapply lookup_lt_Some.
  injection Hv as <-. eauto.
Qed.

Lemma key_overall_content : py "overall" ≠ py "content".
Proof. by cbv. Qed.

Lemma key_overall_categories : py "overall" ≠ py "categories".
Proof. by cbv. Qed.

(** After [analyse], [sentiment] reads as the two entries made from the
    response, whatever [overall] and [content] held before. *)
Lemma analysed_denotes lt dt document r st :
  heap st !! lt = Some (ODict dt) →
  dom dt ⊆ {[py "overall"; py "content"]} →
  denotes (heap (analysed lt dt document r st)) (VRef lt)
    (TDict {[ py "overall" := overall_tree r;
              py "content" := TList (sentence_tree <$> lang.sentences r) ]}).
Proof.
  intros Hdt Hdom.
  assert (lt < length (heap st)) as Hlt by by eapply lookup_lt_Some.
  eapply denotes_Dict; [by apply analysed_sentiment|].
  intros k.
  destruct (decide (k = py "content")) as [->|Hc].
  { rewrite lookup_insert_eq, lookup_insert_ne by apply key_overall_content.
    rewrite lookup_singleton_eq. constructor.
    eapply denotes_List; [by apply analysed_content|].
    apply Forall2_fmap_r.
    eapply (Forall2_refs_from _ _ (ODict ∘ sentence_entry)).
    - intros i s Hi. by apply analysed_entry.
    - intros l s Hl. by apply denotes_sentence_entry. }
  rewrite lookup_insert_ne by done.
  destruct (decide (k = py "overall")) as [->|Ho].
  { rewrite !lookup_insert_eq. constructor.
    apply denotes_overall_entry. by apply analysed_overall. }
  rewrite !lookup_insert_ne by done. rewrite lookup_singleton_ne by done.
  replace (dt !! k) with (@None value); [constructor|].
  symmetry. apply not_elem_of_dom. intros Hk%Hdom.
  by apply elem_of_union in Hk as [->%elem_of_singleton | ->%elem_of_singleton].
Qed.

(** ** [classify] *)

Lemma resolves_overall_categories st lt dt lo ov lc :
  _sentiment (self st) = VRef lt →
  heap st !! lt = Some (ODict dt) →
  dt !! py "overall" = Some (VRef lo) →
  heap st !! lo = Some (ODict ov) →
  ov !! py "categories" = Some (VRef lc) →
  lt ≠ lc → lo ≠ lc →
  resolves overall_categories lc st.
Proof.
  intros Hsent Hdt Hov Hlo Hcat Hne1 Hne2 st' [Hself Hobjs].
  unfold overall_categories.
  erewrite bind_ok; last done. simpl. rewrite Hself, Hsent.
  erewrite bind_ok; last by (eapply getitem_ok; [apply Hobjs|]).
  eapply getitem_ok; [by apply Hobjs|done].
Qed.

Section classify_run.
Context (client : lang.LanguageServiceClient) (st : state).
Context (ls lt : loc) (src dt : gmap pystr value) (body : pystr) (encoded : pybytes).
Hypothesis Hsource : _source (self st) = VRef ls.
Hypothesis Hsrc : heap st !! ls = Some (ODict src).
Hypothesis Hbody : src !! py "body" = Some (VStr body).
Hypothesis Hencoded : utf8.encode body = Some encoded.
Hypothesis Hsentiment : _sentiment (self st) = VRef lt.
Hypothesis Hdt : heap st !! lt = Some (ODict dt).

Let document := {| lang.content := VBytes encoded; lang.type := lang.PLAIN_TEXT |}.

Lemma classify_calls :
  ∀ k : lang.ClassifyTextResponse → M (),
    (src ← source;
     body ← getitem src (py "body");
     encoded ← encode body;
     document ← Document_new encoded lang.PLAIN_TEXT;
     response ← call_classify_text client document;
     k response) st
    = match lang.classify_text client document with
      | Ok r => k r (with_call (lang.ClassifyText document) st)
      | Raise e => (Raise e, with_call (lang.ClassifyText document) st)
      end.
Proof using Hsource Hsrc Hbody Hencoded.
  intros k.
  erewrite bind_ok; last done. rewrite Hsource.
  erewrite bind_ok; last by eapply getitem_ok.
  erewrite bind_ok; last by (unfold encode; rewrite Hencoded).
  erewrite bind_ok; last by eapply Document_new_ok, Document_content_bytes, utf8_encode_decode.
  unfold mbind at 1, M_bind at 1, call_classify_text.
  by destruct (lang.classify_text client _).
Qed.

(** The client fails: so does [classify], the same way. *)
Lemma classify_raises e :
  lang.classify_text client document = Raise e →
  classify client st = (Raise e, with_call (lang.ClassifyText document) st).
Proof using Hsource Hsrc Hbody Hencoded.
  intros Hr. unfold classify. rewrite classify_calls. by rewrite Hr.
Qed.

(** No [overall] yet: the assignment to [categories] under it fails, after
    the client has been called. *)
Lemma classify_missing_overall r :
  lang.classify_text client document = Ok r →
  dt !! py "overall" = None →
  classify client st
  = (Raise (KeyError (py "overall")),
     with_heap (heap st ++ [OList []]) (with_call (lang.ClassifyText document) st)).
Proof using All.
  intros Hr Hov. unfold classify. rewrite classify_calls, Hr.
  assert (lt < length (heap st)) as Hlt by by eapply lookup_lt_Some.
  erewrite bind_ok; last done.
  erewrite bind_ok; last done. simpl. rewrite Hsentiment.
  erewrite bind_raise; first done.
  eapply getitem_missing; [|done]. simpl. by rewrite lookup_app_l.
Qed.

Lemma classify_returns lo ov r :
  lang.classify_text client document = Ok r →
  dt !! py "overall" = Some (VRef lo) →
  heap st !! lo = Some (ODict ov) →
  classify client st = (Ok (), classified lo ov document r st).
Proof using All.
  intros Hr Hov Hlo. unfold classify. rewrite classify_calls, Hr.
  assert (lt < length (heap st)) as Hlt by by eapply lookup_lt_Some.
  assert (lo < length (heap st)) as Hlo' by by eapply lookup_lt_Some.
  erewrite bind_ok; last done.
  erewrite bind_ok; last done. simpl. rewrite Hsentiment.
  erewrite bind_ok; last first.
  { eapply getitem_ok; [|done]. simpl. by rewrite lookup_app_l. }
  erewrite bind_ok; last first.
  { eapply setitem_ok. simpl. by rewrite lookup_app_l. }
  simpl.
  match goal with |- (for_each _ _ ≫= _) ?s = _ => set (st1 := s) end.
  assert (length (heap st1) = S (length (heap st))) as Hlen.
  { subst st1. simpl. rewrite length_insert, length_app. simpl. lia. }
  assert (heap st1 !! lo
          = Some (ODict (<[py "categories" := VRef (length (heap st))]> ov))) as Hlo1.
  { subst st1. simpl. apply list_lookup_insert_eq. rewrite length_app. lia. }
  assert (∃ dt1, heap st1 !! lt = Some (ODict dt1)
                 ∧ dt1 !! py "overall" = Some (VRef lo)) as (dt1 & Hdt1 & Hov1).
  { destruct (decide (lt = lo)) as [->|Hne].
    - eexists; split; [done|]. rewrite lookup_insert_ne by (symmetry; apply key_overall_categories).
      congruence.
    - exists dt. split; [|done]. subst st1. simpl.
      rewrite list_lookup_insert_ne by done. by rewrite lookup_app_l. }
  assert (resolves overall_categories (length (heap st)) st1) as Hres.
  { eapply resolves_overall_categories; [done|done|done|done| |lia|lia].
    apply lookup_insert_eq. }
  assert (heap st1 !! length (heap st) = Some (OList [])) as Hnil.
  { subst st1. simpl. rewrite list_lookup_insert_ne by lia.
    rewrite lookup_app_r by lia.
    by replace (length (heap st) - length (heap st)) with 0 by lia. }
  erewrite bind_ok; last first.
  { eapply (for_each_append category_entry); [done|apply preserved_except_refl|done]. }
  rewrite Hlen. simpl.
  match goal with |- (overall_categories ≫= _) ?s = _ => set (st2 := s) end.
  assert (preserved_except (length (heap st)) st1 st2) as Hpres.
  { split; [done|]. intros l o Hne Hl. subst st2. simpl.
    apply lookup_app_l_Some. by rewrite list_lookup_insert_ne. }
  assert (heap st2 !! length (heap st)
          = Some (OList (refs_from (S (length (heap st))) (length (lang.categories r)))))
    as Hfound.
  { subst st2. simpl. apply lookup_insert_app_eq.
    rewrite length_insert, length_app. simpl. lia. }
  erewrite bind_ok; last by apply Hres.
  erewrite bind_ok; last by apply len_list.
  rewrite length_refs_from.
  unfold classified, category_entries.
  destruct (lang.categories r) as [|cat cats] eqn:Hcats.
  - simpl.
    erewrite bind_ok; last first.
    { erewrite bind_ok; last by apply Hres. by eapply getattr_append_ok. }
    erewrite bind_ok; last done.
    erewrite call_append_ok; last first.
    { simpl. apply lookup_app_l_Some. apply lookup_insert_app_eq.
      rewrite length_insert, length_app. simpl. lia. }
    subst st2 st1. unfold with_heap. simpl. f_equal. f_equal.
    rewrite !app_nil_r, !length_insert, length_app. simpl.
    rewrite insert_app_l by (rewrite !length_insert, length_app; simpl; lia).
    rewrite list_insert_insert_eq.
    by replace (length (heap st) + 1) with (S (length (heap st))) by lia.
  - replace (Z.of_nat (length (cat :: cats)) =? 0)%Z with false
      by (symmetry; apply Z.eqb_neq; simpl; lia).
    subst st2 st1. unfold with_heap, mret, M_ret. simpl. f_equal. f_equal.
    by rewrite !length_fmap, list_fmap_compose.
Qed.

End classify_run.

Section classified_facts.
Context (lo : loc) (ov : gmap pystr value) (document : lang.Document).
Context (r : lang.ClassifyTextResponse) (st : state).
Hypothesis Hlo : lo < length (heap st).

Let n := length (heap st).
Let st' := classified lo ov document r st.

Lemma classified_self : self st' = self st.
Proof. done. Qed.

Lemma classified_calls : calls st' = calls st ++ [lang.ClassifyText document].
Proof. done. Qed.

Lemma classified_frame l :
  l < n → l ≠ lo → heap st' !! l = heap st !! l.
Proof using Hlo.
  intros Hl Hne. subst st' n. unfold classified. cbn [heap].
  rewrite lookup_insert_app_lt; [|rewrite length_insert, length_app; lia|lia].
  rewrite list_lookup_insert_ne by done.
  by rewrite lookup_app_l.
Qed.

Lemma classified_overall :
  heap st' !! lo = Some (ODict (<[py "categories" := VRef n]> ov)).
Proof using Hlo.
  subst st' n. unfold classified. cbn [heap].
  rewrite lookup_insert_app_lt; [|rewrite length_insert, length_app; lia|lia].
  apply list_lookup_insert_eq. rewrite length_app. lia.
Qed.

Lemma classified_categories :
  heap st' !! n = Some (OList (refs_from (S n) (length (category_entries r)))).
Proof.
  subst st' n. unfold classified. cbn [heap].
  apply lookup_insert_app_eq. rewrite length_insert, length_app. simpl. lia.
Qed.

Lemma classified_entry i e :
  category_entries r !! i = Some e → heap st' !! (S n + i) = Some (ODict e).
Proof.
  intros Hi. subst st' n. unfold classified. cbn [heap].
  rewrite lookup_app_r; rewrite !length_insert, length_app; simpl; [|lia].
  replace (S (length (heap st) + i) - (length (heap st) + 1)) with i by lia.
  rewrite list_lookup_fmap. by rewrite Hi.
Qed.

Lemma classified_denotes :
  denotes (heap st') (VRef n) (TList (category_trees r)).
Proof.
  eapply denotes_List; [apply classified_categories|].
  unfold category_trees.
  pose proof classified_entry as Hentry. unfold category_entries in *.
  destruct (lang.categories r) as [|cat cats].
  - constructor; [|constructor].
    apply denotes_no_category. rewrite <- (Hentry 0); [|done].
    by replace (S n + 0) with (S n) by lia.
  - rewrite length_fmap. apply Forall2_fmap_r.
    eapply (Forall2_refs_from _ _ (ODict ∘ category_entry)).
    + intros i x Hi. apply Hentry. rewrite list_lookup_fmap. by rewrite Hi.
    + intros l x Hl. by apply denotes_category_entry.
Qed.

End classified_facts.

(** ** [__init__] *)

Lemma listify_run x st :
  listify x st
  = (Ok (listified x (length (heap st))), with_heap (heap st ++ listify_objs x) st).
Proof.
  unfold listify, listified, listify_objs. destruct (isinstance_str x); [done|].
  unfold mret, M_ret. by rewrite app_nil_r, with_heap_id.
Qed.

Lemma decoded_run body st :
  (if isinstance_binary_type body then decode body else mret body) st
  = match decoded body with
    | Some v => (Ok v, st)
    | None => (Raise UnicodeDecodeError, st)
    end.
Proof.
  destruct body; try done. simpl. by destruct (utf8.decode b).
Qed.

Section init_run.
Context (title author : value) (date : datetime).
Context (url body origin tags misc : value).
Context (h : list obj) (cs : list lang.call).

Lemma new_Content_returns body' :
  decoded body = Some body' →
  new_Content title author date url body origin tags misc h cs
  = (Ok (), constructed title author date url origin tags misc h cs body').
Proof.
  intros Hbody. unfold new_Content, __init__.
  erewrite bind_ok; last done.
  erewrite bind_ok; last by apply listify_run.
  erewrite bind_ok; last by (rewrite decoded_run, Hbody).
  erewrite bind_ok; last by apply listify_run.
  erewrite bind_ok; last by apply listify_run.
  erewrite bind_ok; last done.
  cbn [heap with_heap with_self self calls].
  fold (init_heap author tags misc h).
  fold (constructed_source title author date url origin tags misc h body').
  erewrite bind_ok; last first.
  { unfold source_setter. erewrite bind_ok; last done.
    cbn [heap with_heap with_self self calls is_dict].
    rewrite lookup_app_r by lia. rewrite Nat.sub_diag. done. }
  erewrite bind_ok; last done.
  cbn [heap with_heap with_self self calls _source _sentiment].
  unfold sentiment_setter. erewrite bind_ok; last done.
  cbn [heap with_heap with_self self calls is_dict].
  rewrite lookup_app_r by lia. rewrite Nat.sub_diag.
  cbn [lookup list_lookup negb].
  unfold constructed, with_self. cbn [heap self calls _source _sentiment].
  rewrite <- !app_assoc, !length_app. cbn [length app].
  by replace (length (init_heap author tags misc h) + 1)
    with (S (length (init_heap author tags misc h))) by lia.
Qed.

Lemma new_Content_raises :
  decoded body = None →
  fst (new_Content title author date url body origin tags misc h cs)
  = Raise UnicodeDecodeError.
Proof.
  intros Hbody. unfold new_Content, __init__.
  erewrite bind_ok; last done.
  erewrite bind_ok; last by apply listify_run.
  erewrite bind_raise; last by (rewrite decoded_run, Hbody).
  done.
Qed.

Lemma constructed_source_is body' :
  source_is (constructed title author date url origin tags misc h cs body')
    (constructed_source title author date url origin tags misc h body').
Proof.
  exists (length (init_heap author tags misc h)). split; [done|].
  unfold constructed. cbn [heap].
  rewrite lookup_app_r by lia. by rewrite Nat.sub_diag.
Qed.

Lemma constructed_sentiment_is body' :
  sentiment_is (constructed title author date url origin tags misc h cs body') ∅.
Proof.
  exists (S (length (init_heap author tags misc h))). split; [done|].
  unfold constructed. cbn [heap].
  rewrite lookup_app_r by lia.
  by replace (S (length (init_heap author tags misc h))
              - length (init_heap author tags misc h)) with 1 by lia.
Qed.

Lemma constructed_frame body' l o :
  h !! l = Some o →
  heap (constructed title author date url origin tags misc h cs body') !! l = Some o.
Proof.
  intros Hl. unfold constructed, init_heap. cbn [heap].
  by do 4 apply lookup_app_l_Some.
Qed.

End init_run.

(** ** How a call can end *)

Lemma getitem_cases v k st :
  (∃ l d x, v = VRef l ∧ heap st !! l = Some (ODict d) ∧ d !! k = Some x
            ∧ getitem v k st = (Ok x, st))
  ∨ (∃ e, getitem v k st = (Raise e, st)).
Proof.
  unfold getitem. destruct v as [| | | | | |l]; try by (right; eexists).
  destruct (heap st !! l) as [[d|xs]|] eqn:Hl; try by (right; eexists).
  destruct (d !! k) as [x|] eqn:Hk; [|by (right; eexists)].
  left. by exists l, d, x.
Qed.

Lemma encode_cases v st :
  (∃ s b, v = VStr s ∧ utf8.encode s = Some b ∧ encode v st = (Ok (VBytes b), st))
  ∨ (∃ e, encode v st = (Raise e, st)).
Proof.
  unfold encode. destruct v as [| | | |s| |]; try by (right; eexists).
  destruct (utf8.encode s) as [b|] eqn:Hs; [|by (right; eexists)].
  left. by exists s, b.
Qed.

Lemma Document_new_cases v t st :
  (∃ c, Document_content v = Ok c
        ∧ Document_new v t st = (Ok {| lang.content := c; lang.type := t |}, st))
  ∨ (∃ e, Document_new v t st = (Raise e, st)).
Proof.
  unfold Document_new. destruct (Document_content v) as [c|e].
  - left. by exists c.
  - right. by exists e.
Qed.

Lemma only_grown_same st st' :
  self st' = self st → heap st' = heap st → only_grown st st'.
Proof. intros Hself Hheap. split; [done|]. exists []. by rewrite app_nil_r. Qed.

Lemma only_grown_refl st : only_grown st st.
Proof. by apply only_grown_same. Qed.

(** [analyse] on an object of the class either gets through, which takes a
    body in the source that a document can be made of and an answer of the
    client, or raises before it has changed anything. *)
Lemma analyse_cases client st :
  slots_are_dicts st →
  (∃ ls src body content lt dt r,
     _source (self st) = VRef ls ∧ heap st !! ls = Some (ODict src) ∧
     src !! py "body" = Some body ∧ Document_content body = Ok content ∧
     _sentiment (self st) = VRef lt ∧ heap st !! lt = Some (ODict dt) ∧
     lang.analyze_sentiment client
       {| lang.content := content; lang.type := lang.PLAIN_TEXT |} = Ok r ∧
     analyse client st
     = (Ok (),
        analysed lt dt {| lang.content := content; lang.type := lang.PLAIN_TEXT |} r st))
  ∨ (∃ e st', analyse client st = (Raise e, st') ∧ only_grown st st').
Proof.
  intros [Hsrc Hsent].
  assert (∃ lt dt, _sentiment (self st) = VRef lt ∧ heap st !! lt = Some (ODict dt))
    as (lt & dt & Hsentiment & Hdt).
  { unfold is_dict in Hsent. destruct (_sentiment (self st)) as [| | | | | |lt]; try done.
    destruct (heap st !! lt) as [[dt|]|] eqn:Hdt; try done. by exists lt, dt. }
  destruct (getitem_cases (_source (self st)) (py "body") st)
    as [(ls & src & body & Hsource & Hls & Hbody & Hget)|[e Hget]]; last first.
  { right. exists e, st. split; [|apply only_grown_refl].
    unfold analyse. erewrite bind_ok; last done. by erewrite bind_raise. }
  destruct (Document_new_cases body lang.PLAIN_TEXT st)
    as [(content & Hcontent & Hdoc)|[e Hdoc]]; last first.
  { right. exists e, st. split; [|apply only_grown_refl].
    unfold analyse. erewrite bind_ok; last done. erewrite bind_ok; last done.
    by erewrite bind_raise. }
  destruct (lang.analyze_sentiment client
              {| lang.content := content; lang.type := lang.PLAIN_TEXT |}) as [r|e] eqn:Hr.
  - left. exists ls, src, body, content, lt, dt, r. repeat (split; [done|]).
    by eapply analyse_returns.
  - right. eexists _, _. split; [by eapply analyse_raises|]. by apply only_grown_same.
Qed.

(** [classify] on an object of the class either gets through, which takes
    a text body in the source that encodes, an answer of the client and a
    dictionary under [overall], or raises before it has changed anything. *)
Lemma classify_cases client st :
  slots_are_dicts st →
  (∃ ls src body encoded lt dt lo ov r,
     _source (self st) = VRef ls ∧ heap st !! ls = Some (ODict src) ∧
     src !! py "body" = Some (VStr body) ∧ utf8.encode body = Some encoded ∧
     _sentiment (self st) = VRef lt ∧ heap st !! lt = Some (ODict dt) ∧
     dt !! py "overall" = Some (VRef lo) ∧ heap st !! lo = Some (ODict ov) ∧
     lang.classify_text client (bytes_document encoded) = Ok r ∧
     classify client st = (Ok (), classified lo ov (bytes_document encoded) r st))
  ∨ (∃ e st', classify client st = (Raise e, st') ∧ only_grown st st').
Proof.
  intros [Hsrc Hsent].
  assert (∃ lt dt, _sentiment (self st) = VRef lt ∧ heap st !! lt = Some (ODict dt))
    as (lt & dt & Hsentiment & Hdt).
  { unfold is_dict in Hsent. destruct (_sentiment (self st)) as [| | | | | |lt]; try done.
    destruct (heap st !! lt) as [[dt|]|] eqn:Hdt; try done. by exists lt, dt. }
  assert (lt < length (heap st)) as Hlt by by eapply lookup_lt_Some.
  destruct (getitem_cases (_source (self st)) (py "body") st)
    as [(ls & src & body & Hsource & Hls & Hbody & Hget)|[e Hget]]; last first.
  { right. exists e, st. split; [|apply only_grown_refl].
    unfold classify. erewrite bind_ok; last done. by erewrite bind_raise. }
  destruct (encode_cases body st) as [(s & encoded & -> & Henc & Hrun)|[e Hrun]]; last first.
  { right. exists e, st. split; [|apply only_grown_refl].
    unfold classify. erewrite bind_ok; last done. erewrite bind_ok; last done.
    by erewrite bind_raise. }
  destruct (lang.classify_text client (bytes_document encoded)) as [r|e] eqn:Hr; last first.
  { right. eexists _, _. split; [by eapply classify_raises|]. by apply only_grown_same. }
  destruct (dt !! py "overall") as [o|] eqn:Hov; last first.
  { right. eexists _, _. split; [by eapply classify_missing_overall|].
    split; [done|]. by exists [OList []]. }
  destruct (decide (is_dict (heap st) o = true)) as [Ho|Ho].
  - unfold is_dict in Ho. destruct o as [| | | | | |lo]; try done.
    destruct (heap st !! lo) as [[ov|]|] eqn:Hlo; try done.
    left. exists ls, src, s, encoded, lt, dt, lo, ov, r. repeat (split; [done|]).
    by eapply classify_returns.
  - right. exists TypeError. eexists. split.
    + unfold classify. rewrite (classify_calls client st ls src s encoded) by done.
      unfold bytes_document in Hr. rewrite Hr.
      erewrite bind_ok; last done.
      erewrite bind_ok; last done. simpl. rewrite Hsentiment.
      erewrite bind_ok; last first.
      { eapply getitem_ok; [|done]. simpl. by rewrite lookup_app_l. }
      erewrite bind_raise; first done.
      unfold setitem, is_dict in *. destruct o as [| | | | | |lo]; try done. simpl.
      destruct (decide (lo < length (heap st))) as [Hlo|Hlo].
      * rewrite lookup_app_l by done.
        by destruct (heap st !! lo) as [[ov|]|].
      * destruct (decide (lo = length (heap st))) as [->|Hne].
        -- rewrite lookup_app_r by lia. by rewrite Nat.sub_diag.
        -- rewrite lookup_ge_None_2; [done|]. rewrite length_app. simpl. lia.
    + split; [done|]. by exists [OList []].
Qed.

(** [analyse] gets through on these terms only. *)
Lemma analyse_returns_only_if client st :
  slots_are_dicts st →
  fst (analyse client st) = Ok () →
  ∃ src body content r,
    source_is st src ∧ src !! py "body" = Some body ∧ Document_content body = Ok content ∧
    lang.analyze_sentiment client
      {| lang.content := content; lang.type := lang.PLAIN_TEXT |} = Ok r.
Proof.
  intros Hinv Hok.
  destruct (analyse_cases client st Hinv)
    as [(ls & src & body & content & lt & dt & r
         & Hsource & Hsrc & Hbody & Hcontent & _ & _ & Hr & _)
       |(e & st' & Hrun & _)].
  - exists src, body, content, r. split; [by exists ls|done].
  - by rewrite Hrun in Hok.
Qed.

(** [classify] gets through on these terms only. *)
Lemma classify_returns_only_if client st :
  slots_are_dicts st →
  fst (classify client st) = Ok () →
  ∃ src ov body encoded r,
    source_is st src ∧ src !! py "body" = Some (VStr body) ∧
    utf8.encode body = Some encoded ∧ overall_is st ov ∧
    lang.classify_text client (bytes_document encoded) = Ok r.
Proof.
  intros Hinv Hok.
  destruct (classify_cases client st Hinv)
    as [(ls & src & body & encoded & lt & dt & lo & ov & r & Hsource & Hsrc & Hbody
         & Henc & Hsentiment & Hdt & Hov & Hlo & Hr & _)|(e & st' & Hrun & _)].
  - exists src, ov, body, encoded, r. split; [by exists ls|]. repeat (split; [done|]).
    split; [|done]. exists lo. split; [|done].
    rewrite Hsentiment. cbn [item]. by rewrite Hdt.
  - by rewrite Hrun in Hok.
Qed.

(** * The contract of the class *)

(** ** [jsonify] *)

(** C1. [jsonify(client, automagic=True)] and the three steps taken by hand
    end alike from every state, a new object's included: the same mapping
    returned or the same exception raised, the same slots, the same store
    and the same calls made to the client. *)
Theorem jsonify_automagic_by_hand client st :
  jsonify client true st = analyse_classify_read client st.
Proof.
  unfold jsonify, analyse_classify_read. cbn [negb].
  by rewrite bind_assoc.
Qed.

(** C8. Without [automagic], [jsonify] returns a new mapping of [source] and
    [sentiment] to what the two slots hold, calls the client not once, and
    leaves slots and every object of the store as they were. *)
Theorem jsonify_plain client st :
  ∃ l st',
    jsonify client false st = (Ok (VRef l), st') ∧
    heap st' !! l = Some (ODict {[ py "source" := _source (self st);
                                   py "sentiment" := _sentiment (self st) ]}) ∧
    heap st !! l = None ∧
    calls st' = calls st ∧
    self st' = self st ∧
    ∀ l' o, heap st !! l' = Some o → heap st' !! l' = Some o.
Proof.
  exists (length (heap st)), (with_heap (heap st ++ [ODict {[ py "source" := _source (self st);
                                   py "sentiment" := _sentiment (self st) ]}]) st).
  repeat split.
  - simpl. rewrite lookup_app_r by lia. by rewrite Nat.sub_diag.
  - by apply lookup_ge_None.
  - intros l' o Hl. simpl. by apply lookup_app_l_Some.
Qed.

(** ** The properties *)

(** C4. Assigning to [source] or to [sentiment] raises [TypeError] exactly
    when the value is not a dictionary, and then nothing has changed; a
    dictionary is stored, and the getter returns that very object, its
    contents untouched. *)
Theorem setters_take_mappings_only v st :
  setter_contract source_setter source sentiment v st ∧
  setter_contract sentiment_setter sentiment source v st.
Proof.
  unfold setter_contract, source_setter, sentiment_setter.
  unfold mbind, M_bind, isinstance_dict.
  destruct (is_dict (heap st) v); cbn [negb]; unfold raise.
  - split; (split; [split; [by intros [st' [=]]|done]|]); (split; [done|]);
      intros _; by eexists.
  - split; (split; [split; [done|by eexists]|]); (split; [done|]); done.
Qed.

(** ** The constructor *)

Lemma lookup_listified (pre post : list obj) x :
  isinstance_str x = true →
  (pre ++ listify_objs x ++ post) !! length pre = Some (OList [x]).
Proof.
  intros Hx. unfold listify_objs. rewrite Hx.
  rewrite lookup_app_r by lia. by rewrite Nat.sub_diag.
Qed.

Lemma normalised_listified title author date url origin tags misc h cs body' pre post x :
  init_heap author tags misc h ++ [ODict (constructed_source title author date url origin
                                            tags misc h body'); ODict ∅]
  = pre ++ listify_objs x ++ post →
  length h ≤ length pre →
  normalised h (constructed title author date url origin tags misc h cs body')
    (listified x (length pre)) x.
Proof.
  intros Hheap Hpre. split; [|split].
  - intros s ->. exists (length pre). split; [done|]. split.
    + by apply lookup_ge_None.
    + unfold constructed. cbn [heap]. rewrite Hheap. by apply lookup_listified.
  - intros l xs -> Hl. split; [done|]. by apply constructed_frame.
  - intros Hx. unfold listified. by rewrite Hx.
Qed.

(** C2, amended. In the source of a new object, [author], [tags] and
    [misc] are each a new one-element list of the text given, when text was
    given, and otherwise the very value given: the list given, unchanged,
    and just as well a number, [None] or bytes, which no list is made
    of. *)
Theorem init_sequences title author date url body origin tags misc h cs st :
  new_Content title author date url body origin tags misc h cs = (Ok (), st) →
  ∃ src,
    source_is st src ∧
    (∃ a, src !! py "author" = Some a ∧ normalised h st a author) ∧
    (∃ t, src !! py "tags" = Some t ∧ normalised h st t tags) ∧
    (∃ m, src !! py "misc" = Some m ∧ normalised h st m misc).
Proof.
  intros Hnew.
  destruct (decoded body) as [body'|] eqn:Hbody.
  2: { apply (new_Content_raises title author date url body origin tags misc h cs) in Hbody.
       by rewrite Hnew in Hbody. }
  rewrite (new_Content_returns _ _ _ _ _ _ _ _ _ _ _ Hbody) in Hnew.
  injection Hnew as <-.
  exists (constructed_source title author date url origin tags misc h body').
  split; [apply constructed_source_is|].
  split; [|split]; eexists; (split; [reflexivity|]).
  - eapply normalised_listified; [|done].
    unfold init_heap. by rewrite <- !app_assoc.
  - eapply normalised_listified; [|rewrite length_app; lia].
    unfold init_heap. by rewrite <- !app_assoc.
  - eapply normalised_listified; [|rewrite !length_app; lia].
    unfold init_heap. by rewrite <- !app_assoc.
Qed.

(** C3. A [body] given as bytes that are valid UTF-8 is stored as the text
    they decode to; a [body] given as text is stored as it is. *)
Theorem init_body title author date url body origin tags misc h cs text :
  body = VStr text ∨ (∃ bs, body = VBytes bs ∧ utf8.decode bs = Some text) →
  ∃ st src,
    new_Content title author date url body origin tags misc h cs = (Ok (), st) ∧
    source_is st src ∧
    src !! py "body" = Some (VStr text).
Proof.
  intros Hbody.
  assert (decoded body = Some (VStr text)) as Hdec.
  { destruct Hbody as [->|(bs & -> & Hbs)]; [done|]. simpl. by rewrite Hbs. }
  eexists _, _. split; [by apply new_Content_returns|].
  split; [apply constructed_source_is|]. reflexivity.
Qed.

(** ** [analyse] and [classify] *)

(** C6, amended. An object is taken whose source holds a body a document
    can be made of and whose sentiment holds no entries besides [overall]
    and [content].  When the client answers the example response,
    [analyse] returns and [sentiment] then reads as
    [{overall: {score: 0.5, magnitude: 0.8},
      content: [{text: "Good.", score: 0.9, magnitude: 0.9}]}],
    one entry of [content] for the one sentence returned. *)
Theorem analyse_good_response client st src dt body content :
  source_is st src →
  src !! py "body" = Some body →
  Document_content body = Ok content →
  sentiment_is st dt →
  dom dt ⊆ {[py "overall"; py "content"]} →
  lang.analyze_sentiment client
    {| lang.content := content; lang.type := lang.PLAIN_TEXT |} = Ok good_response →
  ∃ st',
    analyse client st = (Ok (), st') ∧
    denotes (heap st') (_sentiment (self st'))
      (TDict {[ py "overall" := TDict {[ py "score" := TFloat 0.5;
                                         py "magnitude" := TFloat 0.8 ]};
                py "content" := TList [TDict {[ py "text" := TStr (py "Good.");
                                                py "score" := TFloat 0.9;
                                                py "magnitude" := TFloat 0.9 ]}] ]}).
Proof.
  intros (ls & Hsource & Hsrc) Hbody Hcontent (lt & Hsentiment & Hdt) Hdom Hr.
  eexists. split.
  - eapply analyse_returns; eauto.
  - rewrite analysed_self, Hsentiment.
    by apply (analysed_denotes lt dt _ good_response).
Qed.

Lemma overall_is_inv st ov :
  overall_is st ov →
  ∃ lt dt lo,
    _sentiment (self st) = VRef lt ∧ heap st !! lt = Some (ODict dt) ∧
    dt !! py "overall" = Some (VRef lo) ∧ heap st !! lo = Some (ODict ov).
Proof.
  intros (lo & Hitem & Hlo). unfold item in Hitem.
  destruct (_sentiment (self st)) as [| | | | | |lt]; try done.
  destruct (heap st !! lt) as [[dt|]|] eqn:Hdt; try done.
  by exists lt, dt, lo.
Qed.

(** Where [classify] has been, [sentiment] still leads to the same
    [overall], and only [categories] may read differently there. *)
Lemma classified_sentiment lo ov document r st lt dt :
  heap st !! lt = Some (ODict dt) →
  dt !! py "overall" = Some (VRef lo) →
  heap st !! lo = Some (ODict ov) →
  ∃ dt', heap (classified lo ov document r st) !! lt = Some (ODict dt') ∧
         dt' !! py "overall" = Some (VRef lo) ∧
         ∀ k, k ≠ py "categories" → dt' !! k = dt !! k.
Proof.
  intros Hdt Hov Hlo.
  assert (lo < length (heap st)) as Hlo' by by eapply lookup_lt_Some.
  assert (lt < length (heap st)) as Hlt' by by eapply lookup_lt_Some.
  destruct (decide (lt = lo)) as [->|Hne].
  - eexists. split; [by apply classified_overall|].
    assert (dt = ov) as -> by congruence.
    split.
    + rewrite lookup_insert_ne by (symmetry; apply key_overall_categories). done.
    + intros k Hk. by rewrite lookup_insert_ne.
  - exists dt. split; [|done]. by rewrite classified_frame.
Qed.

Lemma classified_path lo ov document r st lt dt :
  heap st !! lt = Some (ODict dt) →
  dt !! py "overall" = Some (VRef lo) →
  heap st !! lo = Some (ODict ov) →
  path (heap (classified lo ov document r st)) (VRef lt) [py "overall"; py "categories"]
  = Some (VRef (length (heap st))).
Proof.
  intros Hdt Hov Hlo.
  assert (lo < length (heap st)) as Hlo' by by eapply lookup_lt_Some.
  destruct (classified_sentiment lo ov document r st lt dt) as (dt' & Hdt' & Hov' & _);
    [done..|].
  cbn [path item]. rewrite Hdt', Hov'. cbn [mbind option_bind item].
  rewrite classified_overall by done. by rewrite lookup_insert_eq.
Qed.

(** C7. With [sentiment['overall']] a dictionary, the source holding the
    text body and the client answering [r], [classify] returns, and
    [sentiment['overall']['categories']] is then a list that is not empty:
    exactly [[{category: "", confidence: 1}]] when [r] has no category,
    and otherwise one [{category, confidence}] per category of [r], in
    order. *)
Theorem classify_categories client st src ov body encoded r :
  source_is st src →
  src !! py "body" = Some (VStr body) →
  utf8.encode body = Some encoded →
  overall_is st ov →
  lang.classify_text client (bytes_document encoded) = Ok r →
  ∃ st' c ts,
    classify client st = (Ok (), st') ∧
    path (heap st') (_sentiment (self st')) [py "overall"; py "categories"] = Some c ∧
    denotes (heap st') c (TList ts) ∧
    ts ≠ [] ∧
    (lang.categories r = [] → ts = [no_category_tree]) ∧
    (lang.categories r ≠ [] → ts = category_tree <$> lang.categories r).
Proof.
  intros (ls & Hsource & Hsrc) Hbody Henc Hov Hr.
  apply overall_is_inv in Hov as (lt & dt & lo & Hsentiment & Hdt & Hov & Hlo).
  exists (classified lo ov (bytes_document encoded) r st),
         (VRef (length (heap st))), (category_trees r).
  split; [eapply classify_returns; eauto|].
  split; [rewrite classified_self, Hsentiment; by eapply classified_path|].
  split; [apply classified_denotes; by eapply lookup_lt_Some|].
  unfold category_trees. by destruct (lang.categories r).
Qed.

(** C5, as the code has it.  On an object whose source holds the text body
    and whose sentiment has no [overall], a new object's included,
    [classify] calls the client first: if the call returns, [classify]
    fails with the missing-key error for [overall]; if the call fails,
    [classify] fails with the client's exception instead. *)
Theorem classify_before_overall client st src dt body encoded :
  source_is st src →
  src !! py "body" = Some (VStr body) →
  utf8.encode body = Some encoded →
  sentiment_is st dt →
  dt !! py "overall" = None →
  fst (classify client st)
  = match lang.classify_text client (bytes_document encoded) with
    | Ok _ => Raise (KeyError (py "overall"))
    | Raise e => Raise e
    end
  ∧ calls (snd (classify client st))
    = calls st ++ [lang.ClassifyText (bytes_document encoded)].
Proof.
  intros (ls & Hsource & Hsrc) Hbody Henc (lt & Hsentiment & Hdt) Hov.
  destruct (lang.classify_text client (bytes_document encoded)) as [r|e] eqn:Hr.
  - by erewrite classify_missing_overall.
  - by erewrite classify_raises.
Qed.

Lemma changed_only_grown target ks st st' :
  only_grown st st' → changed_only target ks st st'.
Proof.
  intros [_ [extra Hheap]]. split.
  - intros l xs Hl. rewrite Hheap. by apply lookup_app_l_Some.
  - intros l d Hl. exists d. rewrite Hheap. split; [by apply lookup_app_l_Some|done].
Qed.

Lemma analysed_changed_only lt dt document r st :
  heap st !! lt = Some (ODict dt) →
  changed_only (Some (VRef lt)) [py "overall"; py "content"] st
    (analysed lt dt document r st).
Proof.
  intros Hdt. assert (lt < length (heap st)) as Hlt by by eapply lookup_lt_Some.
  split.
  - intros l xs Hl. rewrite analysed_frame; [done..|by eapply lookup_lt_Some|congruence].
  - intros l d Hl. destruct (decide (l = lt)) as [->|Hne].
    + eexists. split; [by apply analysed_sentiment|]. split; [|done].
      intros k Hk. assert (d = dt) as -> by congruence.
      rewrite !lookup_insert_ne; [done|set_solver..].
    + exists d. split; [|done].
      rewrite analysed_frame; [done..|by eapply lookup_lt_Some|done].
Qed.

Lemma classified_changed_only lo ov document r st :
  heap st !! lo = Some (ODict ov) →
  changed_only (Some (VRef lo)) [py "categories"] st (classified lo ov document r st).
Proof.
  intros Hov. assert (lo < length (heap st)) as Hlo by by eapply lookup_lt_Some.
  split.
  - intros l xs Hl. rewrite classified_frame; [done..|by eapply lookup_lt_Some|congruence].
  - intros l d Hl. destruct (decide (l = lo)) as [->|Hne].
    + eexists. split; [by apply classified_overall|]. split; [|done].
      intros k Hk. assert (d = ov) as -> by congruence.
      rewrite lookup_insert_ne; [done|set_solver].
    + exists d. split; [|done].
      rewrite classified_frame; [done..|by eapply lookup_lt_Some|done].
Qed.

(** C9. On every object of the class and with every client, [analyse]
    leaves the slots as they were and changes nothing of what was in the
    store but the entries [overall] and [content] of the sentiment
    dictionary: so the source is unchanged, being another dictionary than
    the sentiment.  It gets through when the source holds a body a
    document can be made of and the client answers.  When it has got
    through, [sentiment['overall']]
    is a new dictionary of the [score] and [magnitude] answered and nothing
    else: whatever [categories] were under [overall] are gone. *)
Theorem analyse_replaces_overall client st :
  slots_are_dicts st →
  let st' := snd (analyse client st) in
  self st' = self st ∧
  changed_only (Some (_sentiment (self st))) [py "overall"; py "content"] st st' ∧
  (∀ src, source_is st src → _source (self st) ≠ _sentiment (self st) →
          source_is st' src) ∧
  (∀ src body content r,
     source_is st src → src !! py "body" = Some body →
     Document_content body = Ok content →
     lang.analyze_sentiment client
       {| lang.content := content; lang.type := lang.PLAIN_TEXT |} = Ok r →
     fst (analyse client st) = Ok ()) ∧
  (fst (analyse client st) = Ok () →
     ∃ document r lo,
       calls st' = calls st ++ [lang.AnalyzeSentiment document] ∧
       lang.analyze_sentiment client document = Ok r ∧
       item (heap st') (_sentiment (self st')) (py "overall") = Some (VRef lo) ∧
       heap st !! lo = None ∧
       denotes (heap st') (VRef lo) (overall_tree r) ∧
       path (heap st') (_sentiment (self st')) [py "overall"; py "categories"] = None).
Proof.
  intros Hinv. cbv zeta.
  assert (self (snd (analyse client st)) = self st
          ∧ changed_only (Some (_sentiment (self st))) [py "overall"; py "content"] st
              (snd (analyse client st))) as [Hself Hframe].
  { destruct (analyse_cases client st Hinv)
      as [(ls & src & body & content & lt & dt & r
           & _ & _ & _ & _ & Hsentiment & Hdt & _ & ->)
         |(e & st' & -> & Hgrown)].
    - split; [done|]. rewrite Hsentiment. by apply analysed_changed_only.
    - split; [apply Hgrown|]. by apply changed_only_grown. }
  split; [done|]. split; [done|]. split; [|split].
  - intros src (ls & Hsource & Hsrc) Hne. exists ls. rewrite Hself. split; [done|].
    destruct Hframe as [_ Hdicts].
    destruct (Hdicts ls src Hsrc) as (src' & Hsrc' & _ & Hsame).
    rewrite Hsrc', Hsame; [done|congruence].
  - intros src body content r (ls & Hsource & Hsrc) Hbody Hcontent Hr.
    destruct Hinv as [_ Hsent]. unfold is_dict in Hsent.
    destruct (_sentiment (self st)) as [| | | | | |lt] eqn:Hsentiment; try done.
    destruct (heap st !! lt) as [[dt|]|] eqn:Hdt; try done.
    by erewrite analyse_returns.
  - intros Hok.
    destruct (analyse_cases client st Hinv)
      as [(ls & src & body & content & lt & dt & r & Hsource & Hsrc & Hbody & Hcontent
           & Hsentiment & Hdt & Hr & Hrun)|(e & st' & Hrun & _)];
      rewrite Hrun in *; [|done].
    assert (lt < length (heap st)) as Hlt by by eapply lookup_lt_Some.
    assert (item (heap (analysed lt dt
                          {| lang.content := content; lang.type := lang.PLAIN_TEXT |}
                          r st)) (VRef lt) (py "overall")
            = Some (VRef (length (heap st)))) as Hitem.
    { cbn [item]. rewrite analysed_sentiment by done.
      rewrite lookup_insert_ne by (symmetry; apply key_overall_content).
      by rewrite lookup_insert_eq. }
    eexists _, r, (length (heap st)). cbn [snd]. rewrite analysed_self, Hsentiment.
    split; [done|]. split; [done|]. split; [done|].
    split; [by apply lookup_ge_None|].
    split; [apply denotes_overall_entry; by apply analysed_overall|].
    cbn [path]. rewrite Hitem. cbn [mbind option_bind item].
    by rewrite analysed_overall.
Qed.

(** C10. On every object of the class and with every client, [classify]
    leaves the slots as they were and changes nothing of what was in the
    store but the entry [categories] of the dictionary under
    [sentiment['overall']]: so the source is unchanged, being another
    dictionary than that one, [sentiment['content']] is what it was, and so
    are [score] and [magnitude] under [overall].  It gets through when
    [overall] is a dictionary, the source holds the text body and the
    client answers.  When it has got through, a second [classify], sending
    the same document, gets through as well and leaves in [categories] the
    entries of its own answer alone. *)
Theorem classify_touches_categories_only client st :
  slots_are_dicts st →
  let st' := snd (classify client st) in
  self st' = self st ∧
  changed_only (item (heap st) (_sentiment (self st)) (py "overall"))
    [py "categories"] st st' ∧
  (∀ src, source_is st src →
          item (heap st) (_sentiment (self st)) (py "overall") ≠ Some (_source (self st)) →
          source_is st' src) ∧
  item (heap st') (_sentiment (self st')) (py "content")
  = item (heap st) (_sentiment (self st)) (py "content") ∧
  (∀ ov, overall_is st ov →
         ∃ ov', overall_is st' ov' ∧
                ov' !! py "score" = ov !! py "score" ∧
                ov' !! py "magnitude" = ov !! py "magnitude") ∧
  (∀ src ov body encoded r,
     source_is st src → src !! py "body" = Some (VStr body) →
     utf8.encode body = Some encoded → overall_is st ov →
     lang.classify_text client (bytes_document encoded) = Ok r →
     fst (classify client st) = Ok ()) ∧
  (fst (classify client st) = Ok () →
     ∀ client2 document r2,
       last (calls st') = Some (lang.ClassifyText document) →
       lang.classify_text client2 document = Ok r2 →
       ∃ st'' c,
         classify client2 st' = (Ok (), st'') ∧
         path (heap st'') (_sentiment (self st'')) [py "overall"; py "categories"] = Some c ∧
         denotes (heap st'') c (TList (category_trees r2))).
Proof.
  intros Hinv. cbv zeta.
  assert (self (snd (classify client st)) = self st
          ∧ changed_only (item (heap st) (_sentiment (self st)) (py "overall"))
              [py "categories"] st (snd (classify client st))) as [Hself Hframe].
  { destruct (classify_cases client st Hinv)
      as [(ls & src & body & encoded & lt & dt & lo & ov & r & _ & _ & _ & _
           & Hsentiment & Hdt & Hov & Hlo & _ & ->)|(e & st' & -> & Hgrown)].
    - split; [done|]. rewrite Hsentiment. cbn [item]. rewrite Hdt, Hov.
      by apply classified_changed_only.
    - split; [apply Hgrown|]. by apply changed_only_grown. }
  pose proof Hframe as [_ Hdicts].
  assert (∃ lt dt, _sentiment (self st) = VRef lt ∧ heap st !! lt = Some (ODict dt))
    as (lt & dt & Hsentiment & Hdt).
  { destruct Hinv as [_ Hsent]. unfold is_dict in Hsent.
    destruct (_sentiment (self st)) as [| | | | | |lt]; try done.
    destruct (heap st !! lt) as [[dt|]|] eqn:Hdt; try done. by exists lt, dt. }
  destruct (Hdicts lt dt Hdt) as (dt' & Hdt' & Hkeys & _).
  assert (py "content" ∉ [py "categories"]) as Hcontent.
  { intros [=]%list_elem_of_singleton. }
  assert (py "overall" ∉ [py "categories"]) as Hoverall.
  { intros [=]%list_elem_of_singleton. }
  split; [done|]. split; [done|]. split; [|split; [|split; [|split]]].
  - intros src (ls & Hsource & Hsrc) Hne. exists ls. rewrite Hself. split; [done|].
    destruct (Hdicts ls src Hsrc) as (src' & Hsrc' & _ & Hsame).
    rewrite Hsrc', Hsame; [done|congruence].
  - rewrite Hself, Hsentiment. cbn [item]. rewrite Hdt', Hdt. by apply Hkeys.
  - intros ov (lo & Hitem & Hlo).
    destruct (Hdicts lo ov Hlo) as (ov' & Hov' & Hkeys' & _).
    exists ov'. split; [|split; apply Hkeys'; by intros [=]%list_elem_of_singleton].
    exists lo. split; [|done].
    rewrite Hself, Hsentiment in *. cbn [item] in *. rewrite Hdt in Hitem.
    rewrite Hdt', Hkeys; done.
  - intros src ov body encoded r (ls & Hsource & Hsrc) Hbody Henc Hov Hr.
    apply overall_is_inv in Hov as (lt' & dt0 & lo & Hsentiment' & Hdt0 & Hov & Hlo).
    by erewrite classify_returns.
  - intros Hok client2 document r2 Hlast Hr2.
    destruct (classify_cases client st Hinv)
      as [(ls & src & body & encoded & lt' & dt0 & lo & ov & r & Hsource & Hsrc & Hbody
           & Henc & Hsentiment' & Hdt0 & Hov & Hlo & Hr & Hrun)|(e & st' & Hrun & _)];
      rewrite Hrun in *; [|done].
    cbn [snd] in *.
    rewrite classified_calls, last_snoc in Hlast. injection Hlast as <-.
    assert (lo < length (heap st)) as Hlo' by by eapply lookup_lt_Some.
    set (st' := classified lo ov (bytes_document encoded) r st) in *.
    destruct (Hdicts ls src Hsrc) as (src' & Hsrc' & Hsrckeys & _).
    assert (heap st' !! lo
            = Some (ODict (<[py "categories" := VRef (length (heap st))]> ov))) as Hlo2.
    { by apply classified_overall. }
    assert (lt' = lt) as -> by congruence.
    exists (classified lo (<[py "categories" := VRef (length (heap st))]> ov)
              (bytes_document encoded) r2 st'), (VRef (length (heap st'))).
    assert (dt' !! py "overall" = Some (VRef lo)) as Hov2.
    { rewrite Hkeys by done. congruence. }
    split.
    + eapply classify_returns; [done|done| |done|done|done|done|done|done].
      rewrite Hsrckeys; [done|]. by intros [=]%list_elem_of_singleton.
    + split; [rewrite classified_self; change (self st') with (self st);
              rewrite Hsentiment; by eapply classified_path|].
      apply classified_denotes. by eapply lookup_lt_Some.
Qed.

(** * The worked objects, run *)

Example example_new_returns : fst example_new = Ok ().
Proof. reflexivity. Qed.

Example example_slots : self example = {| _source := VRef 3; _sentiment := VRef 4 |}.
Proof. reflexivity. Qed.

Example example_date_str :
  item (heap example) (VRef 3) (py "date") = Some (VStr (py "2018-05-17 09:30:00")).
Proof. reflexivity. Qed.

Example utf8_decode_mixed :
  utf8.decode [0x47; 0xC3; 0xA9; 0xE2; 0x82; 0xAC; 0xF0; 0x9F; 0x98; 0x80]%Z
  = Some [0x47; 0xE9; 0x20AC; 0x1F600]%Z.
Proof. reflexivity. Qed.

Example utf8_encode_mixed :
  utf8.encode [0x47; 0xE9; 0x20AC; 0x1F600]%Z
  = Some [0x47; 0xC3; 0xA9; 0xE2; 0x82; 0xAC; 0xF0; 0x9F; 0x98; 0x80]%Z.
Proof. reflexivity. Qed.

Example utf8_decode_overlong : utf8.decode [0xC0; 0x80]%Z = None.
Proof. reflexivity. Qed.

Example utf8_decode_surrogate : utf8.decode [0xED; 0xA0; 0x80]%Z = None.
Proof. reflexivity. Qed.

Example utf8_decode_truncated : utf8.decode [0xE2; 0x82]%Z = None.
Proof. reflexivity. Qed.

Example utf8_encode_surrogate : utf8.encode [0xD800]%Z = None.
Proof. reflexivity. Qed.

(** C2 as stated fails: a number, [None] and bytes, given as [author],
    [tags] and [misc], are scalars and are stored as they are, in no
    list. *)
Lemma init_scalars_stored_bare :
  ∃ st src,
    new_Content (VStr (py "Report")) (VInt 5) example_date
      (VStr (py "https://example.org/report")) (VBytes (py "Good."))
      (VStr (py "web")) VNone (VBytes (py "x")) example_store [] = (Ok (), st) ∧
    source_is st src ∧
    src !! py "author" = Some (VInt 5) ∧
    src !! py "tags" = Some VNone ∧
    src !! py "misc" = Some (VBytes (py "x")).
Proof.
  eexists _, _. split; [reflexivity|].
  split; [exists 1; split; reflexivity|].
  repeat split.
Qed.

(** The new object of the example: [author] and [misc], given as text, are
    one-element lists; [tags], given as a list, is that list. *)
Lemma init_sequences_example :
  ∃ src,
    source_is example src ∧
    (∃ a, src !! py "author" = Some a ∧ normalised example_store example a (VStr (py "Ann"))) ∧
    (∃ t, src !! py "tags" = Some t ∧ normalised example_store example t (VRef 0)) ∧
    (∃ m, src !! py "misc" = Some m ∧ normalised example_store example m (VStr (py ""))).
Proof.
  apply (init_sequences (VStr (py "Report")) (VStr (py "Ann")) example_date
           (VStr (py "https://example.org/report")) (VBytes (py "Good."))
           (VStr (py "web")) (VRef 0) (VStr (py "")) example_store [] example).
  reflexivity.
Defined.

(** Bytes and text as [body]. *)
Lemma init_body_example :
  (∃ st src,
     new_Content (VStr (py "Report")) (VStr (py "Ann")) example_date
       (VStr (py "https://example.org/report")) (VBytes [0x47; 0xC3; 0xA9]%Z)
       (VStr (py "web")) (VRef 0) (VStr (py "")) example_store [] = (Ok (), st) ∧
     source_is st src ∧ src !! py "body" = Some (VStr [0x47; 0xE9]%Z)) ∧
  (∃ st src,
     new_Content (VStr (py "Report")) (VStr (py "Ann")) example_date
       (VStr (py "https://example.org/report")) (VStr [0x47; 0xE9]%Z)
       (VStr (py "web")) (VRef 0) (VStr (py "")) example_store [] = (Ok (), st) ∧
     source_is st src ∧ src !! py "body" = Some (VStr [0x47; 0xE9]%Z)).
Proof.
  split.
  - apply init_body. right. exists [0x47; 0xC3; 0xA9]%Z. split; reflexivity.
  - apply init_body. left. reflexivity.
Defined.

(** An integer is refused and a dictionary taken, by either setter. *)
Lemma setters_example :
  source_setter (VInt 5) example = (Raise TypeError, example) ∧
  sentiment_setter (VStr (py "positive")) example = (Raise TypeError, example) ∧
  (∃ st', source_setter (VRef 4) example = (Ok (), st') ∧
          source st' = (Ok (VRef 4), st') ∧ heap st' = heap example) ∧
  (∃ st', sentiment_setter (VRef 3) example = (Ok (), st') ∧
          sentiment st' = (Ok (VRef 3), st') ∧ heap st' = heap example).
Proof.
  split; [|split; [|split]].
  - by apply (setters_take_mappings_only (VInt 5) example).
  - by apply (setters_take_mappings_only (VStr (py "positive")) example).
  - destruct (setters_take_mappings_only (VRef 4) example) as [(_ & _ & H) _].
    destruct H as (st' & H1 & H2 & H3 & _); [reflexivity|]. by exists st'.
  - destruct (setters_take_mappings_only (VRef 3) example) as [_ (_ & _ & H)].
    destruct H as (st' & H1 & H2 & H3 & _); [reflexivity|]. by exists st'.
Defined.

(** The new object of the example, classified before it is analysed, by a
    client that answers: the missing key. *)
Lemma classify_before_overall_example :
  fst (classify mock example) = Raise (KeyError (py "overall")) ∧
  calls (snd (classify mock example)) = [lang.ClassifyText (bytes_document (py "Good."))].
Proof.
  eapply (classify_before_overall mock example _ ∅ (py "Good.") (py "Good.")).
  - exists 3. split; reflexivity.
  - reflexivity.
  - reflexivity.
  - exists 4. split; reflexivity.
  - reflexivity.
Defined.

(** C5 as stated fails: the new object of the example has no [overall], and
    with the service down [classify] fails with the client's exception,
    which is no missing-key error. *)
Lemma classify_unavailable_client :
  fst example_new = Ok () ∧
  sentiment_is example ∅ ∧
  fst (classify unavailable example) = Raise (ServiceError (py "unavailable")) ∧
  ∀ k, fst (classify unavailable example) ≠ Raise (KeyError k).
Proof.
  split; [reflexivity|].
  split; [exists 4; split; reflexivity|].
  split; [reflexivity|].
  intros k. vm_compute. discriminate.
Qed.

Lemma analyse_good_response_example :
  ∃ st',
    analyse mock example = (Ok (), st') ∧
    denotes (heap st') (_sentiment (self st'))
      (TDict {[ py "overall" := TDict {[ py "score" := TFloat 0.5;
                                         py "magnitude" := TFloat 0.8 ]};
                py "content" := TList [TDict {[ py "text" := TStr (py "Good.");
                                                py "score" := TFloat 0.9;
                                                py "magnitude" := TFloat 0.9 ]}] ]}).
Proof.
  eapply (analyse_good_response mock example _ ∅ (VStr (py "Good.")) (VStr (py "Good."))).
  - exists 3. split; reflexivity.
  - reflexivity.
  - reflexivity.
  - exists 4. split; reflexivity.
  - rewrite dom_empty_L. apply empty_subseteq.
  - reflexivity.
Defined.

(** C6 as stated fails, with the client of the example.  On an object
    whose sentiment holds a note, [analyse] returns and leaves the note
    beside [overall] and [content]; on one whose body is a lone surrogate,
    and on one without a body, [analyse] raises and [sentiment] is as it
    was. *)
Lemma analyse_good_response_fails :
  (fst (analyse mock example_noted) = Ok () ∧
   item (heap (snd (analyse mock example_noted)))
     (_sentiment (self (snd (analyse mock example_noted)))) (py "note")
   = Some (VStr (py "draft")) ∧
   ¬ denotes (heap (snd (analyse mock example_noted)))
       (_sentiment (self (snd (analyse mock example_noted))))
       (TDict {[ py "overall" := TDict {[ py "score" := TFloat 0.5;
                                          py "magnitude" := TFloat 0.8 ]};
                 py "content" := TList [TDict {[ py "text" := TStr (py "Good.");
                                                 py "score" := TFloat 0.9;
                                                 py "magnitude" := TFloat 0.9 ]}] ]})) ∧
  (analyse mock example_surrogate = (Raise ValueError, example_surrogate) ∧
   sentiment_is example_surrogate ∅) ∧
  (analyse mock example_emptied = (Raise (KeyError (py "body")), example_emptied) ∧
   sentiment_is example_emptied ∅).
Proof.
  split; [|split].
  - split; [reflexivity|]. split; [reflexivity|].
    intros Hden. inversion Hden as [| | | | | | |l d td Hl Hd]; subst.
    vm_compute in Hl. injection Hl as <-.
    specialize (Hd (py "note")). vm_compute in Hd. inversion Hd.
  - split; [reflexivity|]. exists 4. split; reflexivity.
  - split; [reflexivity|]. exists 4. split; reflexivity.
Qed.

(** The worked object, analysed, then classified: by a client that answers
    no category, which leaves the stand-in alone in [categories], and by
    one that answers two, which leaves their two entries, in order. *)
Lemma classify_categories_example :
  (∃ st' c,
     classify mock example_analysed = (Ok (), st') ∧
     path (heap st') (_sentiment (self st')) [py "overall"; py "categories"] = Some c ∧
     denotes (heap st') c
       (TList [TDict {[ py "category" := TStr (py ""); py "confidence" := TInt 1 ]}])) ∧
  (∃ st' c,
     classify mock_topics example_analysed = (Ok (), st') ∧
     path (heap st') (_sentiment (self st')) [py "overall"; py "categories"] = Some c ∧
     denotes (heap st') c
       (TList [TDict {[ py "category" := TStr (py "/News");
                        py "confidence" := TFloat 0.75 ]};
               TDict {[ py "category" := TStr (py "/Science");
                        py "confidence" := TFloat 0.5 ]}])).
Proof.
  split.
  - destruct (classify_categories mock example_analysed
                (constructed_source (VStr (py "Report")) (VStr (py "Ann")) example_date
                   (VStr (py "https://example.org/report")) (VStr (py "web")) (VRef 0)
                   (VStr (py "")) example_store (VStr (py "Good.")))
                (overall_entry good_response) (py "Good.") (py "Good.")
                {| lang.categories := [] |})
      as (st' & c & ts & Hrun & Hpath & Hden & _ & Hts & _).
    + exists 3. split; reflexivity.
    + reflexivity.
    + reflexivity.
    + exists 5. split; reflexivity.
    + reflexivity.
    + exists st', c. rewrite Hts in Hden by done. done.
  - destruct (classify_categories mock_topics example_analysed
                (constructed_source (VStr (py "Report")) (VStr (py "Ann")) example_date
                   (VStr (py "https://example.org/report")) (VStr (py "web")) (VRef 0)
                   (VStr (py "")) example_store (VStr (py "Good.")))
                (overall_entry good_response) (py "Good.") (py "Good.")
                {| lang.categories :=
                     [ {| lang.name := py "/News"; lang.confidence := 0.75 |};
                       {| lang.name := py "/Science"; lang.confidence := 0.5 |} ] |})
      as (st' & c & ts & Hrun & Hpath & Hden & _ & _ & Hts).
    + exists 3. split; reflexivity.
    + reflexivity.
    + reflexivity.
    + exists 5. split; reflexivity.
    + reflexivity.
    + exists st', c. rewrite Hts in Hden by done. done.
Defined.

(** The worked object once analysed and classified, analysed again: the
    source is as it was, and [overall] is a new dictionary without
    [categories]. *)
Lemma analyse_replaces_overall_example :
  path (heap example_classified) (_sentiment (self example_classified))
    [py "overall"; py "categories"] = Some (VRef 8) ∧
  let st' := snd (analyse mock example_classified) in
  self st' = self example_classified ∧
  changed_only (Some (_sentiment (self example_classified))) [py "overall"; py "content"]
    example_classified st' ∧
  (∀ src, source_is example_classified src →
          _source (self example_classified) ≠ _sentiment (self example_classified) →
          source_is st' src) ∧
  (∀ src body content r,
     source_is example_classified src → src !! py "body" = Some body →
     Document_content body = Ok content →
     lang.analyze_sentiment mock
       {| lang.content := content; lang.type := lang.PLAIN_TEXT |} = Ok r →
     fst (analyse mock example_classified) = Ok ()) ∧
  (fst (analyse mock example_classified) = Ok () →
     ∃ document r lo,
       calls st' = calls example_classified ++ [lang.AnalyzeSentiment document] ∧
       lang.analyze_sentiment mock document = Ok r ∧
       item (heap st') (_sentiment (self st')) (py "overall") = Some (VRef lo) ∧
       heap example_classified !! lo = None ∧
       denotes (heap st') (VRef lo) (overall_tree r) ∧
       path (heap st') (_sentiment (self st')) [py "overall"; py "categories"] = None).
Proof.
  split; [reflexivity|].
  apply (analyse_replaces_overall mock example_classified).
  split; reflexivity.
Defined.

(** The worked object once analysed, classified. *)
Lemma classify_touches_categories_only_example :
  let st := example_analysed in
  let st' := snd (classify mock_topics st) in
  self st' = self st ∧
  changed_only (item (heap st) (_sentiment (self st)) (py "overall"))
    [py "categories"] st st' ∧
  (∀ src, source_is st src →
          item (heap st) (_sentiment (self st)) (py "overall") ≠ Some (_source (self st)) →
          source_is st' src) ∧
  item (heap st') (_sentiment (self st')) (py "content")
  = item (heap st) (_sentiment (self st)) (py "content") ∧
  (∀ ov, overall_is st ov →
         ∃ ov', overall_is st' ov' ∧
                ov' !! py "score" = ov !! py "score" ∧
                ov' !! py "magnitude" = ov !! py "magnitude") ∧
  (∀ src ov body encoded r,
     source_is st src → src !! py "body" = Some (VStr body) →
     utf8.encode body = Some encoded → overall_is st ov →
     lang.classify_text mock_topics (bytes_document encoded) = Ok r →
     fst (classify mock_topics st) = Ok ()) ∧
  (fst (classify mock_topics st) = Ok () →
     ∀ client2 document r2,
       last (calls st') = Some (lang.ClassifyText document) →
       lang.classify_text client2 document = Ok r2 →
       ∃ st'' c,
         classify client2 st' = (Ok (), st'') ∧
         path (heap st'') (_sentiment (self st'')) [py "overall"; py "categories"] = Some c ∧
         denotes (heap st'') c (TList (category_trees r2))).
Proof.
  apply (classify_touches_categories_only mock_topics example_analysed).
  split; reflexivity.
Defined.

(** The two calls of [classify] on the worked object: the second leaves
    its own stand-in, not the two entries of the first with it. *)
Example classify_twice_example :
  let st' := snd (classify mock (snd (classify mock_topics example_analysed))) in
  fst (classify mock (snd (classify mock_topics example_analysed))) = Ok () ∧
  path (heap st') (_sentiment (self st')) [py "overall"; py "categories"] = Some (VRef 11) ∧
  heap st' !! 11 = Some (OList [VRef 12]) ∧
  heap st' !! 12 = Some (ODict no_category) ∧
  heap st' !! 8 = Some (OList [VRef 9; VRef 10]).
Proof. repeat split; reflexivity. Qed.

(** * The slots hold dictionaries, always *)

Lemma steady_ret {A} (a : A) : steady (mret a).
Proof. by intros st. Qed.

Lemma steady_raise {A} e : steady (@raise A e).
Proof. by intros st. Qed.

Lemma steady_bind {A B} (m : M A) (f : A → M B) :
  steady m → (∀ a, steady (f a)) → steady (m ≫= f).
Proof.
  intros Hm Hf st. specialize (Hm st). unfold mbind, M_bind.
  destruct (m st) as [[a|e] st1]; [|done]. simpl in Hm.
  destruct Hm as [Hself Hdicts], (Hf a st1) as [Hself' Hdicts'].
  split; [congruence|]. eauto.
Qed.

Lemma steady_if {A} (b : bool) (m1 m2 : M A) :
  steady m1 → steady m2 → steady (if b then m1 else m2).
Proof. by destruct b. Qed.

Lemma steady_for_each {A} (xs : list A) (body : A → M ()) :
  (∀ x, steady (body x)) → steady (for_each xs body).
Proof.
  intros Hbody. induction xs as [|x xs IH]; [apply steady_ret|].
  apply steady_bind; auto.
Qed.

Lemma is_dict_app h o v : is_dict h v = true → is_dict (h ++ [o]) v = true.
Proof.
  destruct v as [| | | | | |l]; try done. simpl.
  destruct (h !! l) as [[d|xs]|] eqn:Hl; try done.
  by rewrite (lookup_app_l_Some _ _ _ _ Hl).
Qed.

Lemma is_dict_insert_dict h l d v :
  is_dict h v = true → is_dict (<[l := ODict d]> h) v = true.
Proof.
  destruct v as [| | | | | |l']; try done. simpl.
  destruct (h !! l') as [[d'|xs]|] eqn:Hl; try done. intros _.
  destruct (decide (l = l')) as [->|Hne].
  - rewrite list_lookup_insert_eq; [done|by eapply lookup_lt_Some].
  - by rewrite list_lookup_insert_ne, Hl.
Qed.

Lemma is_dict_insert_list h l xs xs' v :
  h !! l = Some (OList xs) →
  is_dict h v = true → is_dict (<[l := OList xs']> h) v = true.
Proof.
  intros Hlist. destruct v as [| | | | | |l']; try done. simpl.
  destruct (h !! l') as [[d'|ys]|] eqn:Hl; try done. intros _.
  rewrite list_lookup_insert_ne by congruence. by rewrite Hl.
Qed.

Lemma steady_alloc o : steady (alloc o).
Proof. intros st. split; [done|]. intros v. apply is_dict_app. Qed.

Lemma steady_getitem v k : steady (getitem v k).
Proof.
  intros st. unfold getitem.
  destruct v as [| | | | | |l]; try done.
  destruct (heap st !! l) as [[d|xs]|]; try done. by destruct (d !! k).
Qed.

Lemma steady_setitem v k x : steady (setitem v k x).
Proof.
  intros st. unfold setitem.
  destruct v as [| | | | | |l]; try done.
  destruct (heap st !! l) as [[d|xs]|]; try done.
  split; [done|]. intros v. apply is_dict_insert_dict.
Qed.

Lemma steady_getattr_append v : steady (getattr_append v).
Proof.
  intros st. unfold getattr_append.
  destruct v as [| | | | | |l]; try done.
  by destruct (heap st !! l) as [[d|xs]|].
Qed.

Lemma steady_call_append l x : steady (call_append l x).
Proof.
  intros st. unfold call_append.
  destruct (heap st !! l) as [[d|xs]|] eqn:Hl; try done.
  split; [done|]. intros v. by eapply is_dict_insert_list.
Qed.

Lemma steady_len v : steady (len v).
Proof.
  intros st. unfold len.
  destruct v as [| | | | | |l]; try done.
  by destruct (heap st !! l) as [[d|xs]|].
Qed.

Lemma steady_source : steady source.
Proof. by intros st. Qed.

Lemma steady_sentiment : steady sentiment.
Proof. by intros st. Qed.

Lemma steady_encode v : steady (encode v).
Proof.
  intros st. unfold encode. destruct v; try done. by destruct (utf8.encode s).
Qed.

Lemma steady_Document_new v t : steady (Document_new v t).
Proof. intros st. unfold Document_new. by destruct (Document_content v). Qed.

Lemma steady_call_analyze_sentiment client document :
  steady (call_analyze_sentiment client document).
Proof. by intros st. Qed.

Lemma steady_call_classify_text client document :
  steady (call_classify_text client document).
Proof. by intros st. Qed.

#[local] Hint Resolve steady_ret steady_raise steady_alloc steady_getitem steady_setitem
  steady_getattr_append steady_call_append steady_len steady_source steady_sentiment steady_encode
  steady_Document_new steady_call_analyze_sentiment steady_call_classify_text : steady.
#[local] Hint Extern 1 (steady (_ ≫= _)) => apply steady_bind; [|intros ?] : steady.
#[local] Hint Extern 1 (steady (if _ then _ else _)) => apply steady_if : steady.
#[local] Hint Extern 1 (steady (for_each _ _)) => apply steady_for_each; intros ? : steady.

Lemma steady_analyse client : steady (analyse client).
Proof. unfold analyse, sentiment_content. auto 20 with steady. Qed.

Lemma steady_classify client : steady (classify client).
Proof. unfold classify, overall_categories. auto 30 with steady. Qed.

Lemma steady_jsonify client automagic : steady (jsonify client automagic).
Proof.
  unfold jsonify. pose proof (steady_analyse client). pose proof (steady_classify client).
  auto 20 with steady.
Qed.

Lemma steady_slots {A} (m : M A) st :
  steady m → slots_are_dicts st → slots_are_dicts (snd (m st)).
Proof.
  intros Hm [Hsrc Hsent]. destruct (Hm st) as [Hself Hdicts].
  unfold slots_are_dicts. rewrite Hself. auto.
Qed.

(** X1. The invariant of the class: a new object has dictionaries in both
    slots, and no setter or method, however it ends, leaves anything else
    there. *)
Lemma slots_are_dicts_invariant :
  (∀ title author date url body origin tags misc h cs st,
     new_Content title author date url body origin tags misc h cs = (Ok (), st) →
     slots_are_dicts st) ∧
  (∀ st, slots_are_dicts st →
     (∀ v, slots_are_dicts (snd (source_setter v st))) ∧
     (∀ v, slots_are_dicts (snd (sentiment_setter v st))) ∧
     (∀ client, slots_are_dicts (snd (analyse client st))) ∧
     (∀ client, slots_are_dicts (snd (classify client st))) ∧
     (∀ client automagic, slots_are_dicts (snd (jsonify client automagic st)))).
Proof.
  split.
  - intros title author date url body origin tags misc h cs st Hnew.
    destruct (decoded body) as [body'|] eqn:Hbody.
    2: { apply (new_Content_raises title author date url body origin tags misc h cs) in Hbody.
         by rewrite Hnew in Hbody. }
    rewrite (new_Content_returns _ _ _ _ _ _ _ _ _ _ _ Hbody) in Hnew.
    injection Hnew as <-.
    destruct (constructed_source_is title author date url origin tags misc h cs body')
      as (ls & Hls & Hsrc).
    destruct (constructed_sentiment_is title author date url origin tags misc h cs body')
      as (lt & Hlt & Hdt).
    unfold slots_are_dicts, is_dict. by rewrite Hls, Hlt, Hsrc, Hdt.
  - intros st [Hsrc Hsent]. repeat split.
    + unfold source_setter, mbind, M_bind, isinstance_dict.
      by destruct (is_dict (heap st) v) eqn:Hv.
    + unfold source_setter, mbind, M_bind, isinstance_dict.
      by destruct (is_dict (heap st) v) eqn:Hv.
    + unfold sentiment_setter, mbind, M_bind, isinstance_dict.
      by destruct (is_dict (heap st) v) eqn:Hv.
    + unfold sentiment_setter, mbind, M_bind, isinstance_dict.
      by destruct (is_dict (heap st) v) eqn:Hv.
    + by apply (steady_slots _ _ (steady_analyse client)).
    + by apply (steady_slots _ _ (steady_analyse client)).
    + by apply (steady_slots _ _ (steady_classify client)).
    + by apply (steady_slots _ _ (steady_classify client)).
    + by apply (steady_slots _ _ (steady_jsonify client automagic)).
    + by apply (steady_slots _ _ (steady_jsonify client automagic)).
Qed.

Lemma slots_are_dicts_example :
  slots_are_dicts example ∧ slots_are_dicts (snd (jsonify unavailable true example)).
Proof.
  assert (slots_are_dicts example) as Hnew.
  { apply (proj1 slots_are_dicts_invariant (VStr (py "Report")) (VStr (py "Ann"))
             example_date (VStr (py "https://example.org/report")) (VBytes (py "Good."))
             (VStr (py "web")) (VRef 0) (VStr (py "")) example_store []).
    reflexivity. }
  split; [exact Hnew|].
  destruct (proj2 slots_are_dicts_invariant example Hnew) as (_ & _ & _ & _ & Hjsonify).
  apply Hjsonify.
Defined.

(** ** New objects *)

(** A new object whose body was given as text that encodes, or as bytes
    that decode, is one [classify] cannot get through: it calls the client
    and then misses [overall], unless the client fails first. *)
Lemma classify_new_object client title author date url body origin tags misc h cs
    st text encoded :
  (body = VStr text ∧ utf8.encode text = Some encoded)
  ∨ (body = VBytes encoded ∧ utf8.decode encoded = Some text) →
  new_Content title author date url body origin tags misc h cs = (Ok (), st) →
  fst (classify client st)
  = match lang.classify_text client (bytes_document encoded) with
    | Ok _ => Raise (KeyError (py "overall"))
    | Raise e => Raise e
    end.
Proof.
  intros Hbody Hnew.
  assert (decoded body = Some (VStr text) ∧ utf8.encode text = Some encoded) as [Hdec Henc].
  { destruct Hbody as [[-> Henc]|[-> Hdec]]; [done|].
    split; [simpl; by rewrite Hdec|by apply utf8_decode_encode]. }
  rewrite (new_Content_returns _ _ _ _ _ _ _ _ _ _ _ Hdec) in Hnew.
  injection Hnew as <-.
  destruct (constructed_source_is title author date url origin tags misc h cs (VStr text))
    as (ls & Hsource & Hsrc).
  destruct (constructed_sentiment_is title author date url origin tags misc h cs (VStr text))
    as (lt & Hsentiment & Hdt).
  destruct (lang.classify_text client (bytes_document encoded)) as [r|e] eqn:Hr.
  - by erewrite classify_missing_overall.
  - by erewrite classify_raises.
Qed.

(** The worked object through [jsonify] with [automagic]: what the
    returned mapping leads to, and the calls made. *)
Example jsonify_automagic_example :
  let st' := snd (jsonify mock true example) in
  fst (jsonify mock true example) = Ok (VRef 10) ∧
  path (heap st') (VRef 10) [py "source"; py "body"] = Some (VStr (py "Good.")) ∧
  path (heap st') (VRef 10) [py "source"; py "author"] = Some (VRef 1) ∧
  heap st' !! 1 = Some (OList [VStr (py "Ann")]) ∧
  path (heap st') (VRef 10) [py "source"; py "tags"] = Some (VRef 0) ∧
  path (heap st') (VRef 10) [py "sentiment"; py "overall"; py "score"] = Some (VFloat 0.5) ∧
  path (heap st') (VRef 10) [py "sentiment"; py "overall"; py "categories"] = Some (VRef 8) ∧
  heap st' !! 8 = Some (OList [VRef 9]) ∧
  heap st' !! 9 = Some (ODict no_category) ∧
  path (heap st') (VRef 10) [py "sentiment"; py "content"] = Some (VRef 6) ∧
  heap st' !! 6 = Some (OList [VRef 7]) ∧
  heap st' !! 7 = Some (ODict (sentence_entry
                                 {| lang.text := {| lang.span_content := py "Good." |};
                                    lang.sentiment := {| lang.score := 0.9;
                                                         lang.magnitude := 0.9 |} |})) ∧
  calls st' = [lang.AnalyzeSentiment (text_document (py "Good."));
               lang.ClassifyText (bytes_document (py "Good."))].
Proof. repeat split; reflexivity. Qed.

(** * Further properties of the class *)

(** ** The constructor *)

(** X2. The constructor fails on one kind of argument only: a [body] of
    bytes that are not UTF-8, which raises [UnicodeDecodeError].  On every
    other argument, of whatever type, it returns. *)
Theorem init_fails_on_undecodable_body_only title author date url body origin tags misc h cs :
  fst (new_Content title author date url body origin tags misc h cs)
  = match body with
    | VBytes b => match utf8.decode b with
                  | Some _ => Ok ()
                  | None => Raise UnicodeDecodeError
                  end
    | _ => Ok ()
    end.
Proof.
  destruct (decoded body) as [body'|] eqn:Hbody.
  - rewrite (new_Content_returns _ _ _ _ _ _ _ _ _ _ _ Hbody).
    destruct body; try done. simpl in Hbody. by destruct (utf8.decode b).
  - rewrite (new_Content_raises _ _ _ _ _ _ _ _ _ _ Hbody).
    destruct body; try done. simpl in Hbody. by destruct (utf8.decode b).
Qed.

(** X3. A new object has two new dictionaries of its own, not one shared:
    an empty sentiment, and a source of exactly the eight keys, where
    [title], [url] and [origin] are as given and [date] is the text of the
    date.  No object that was in the store has changed and the client has
    not been called. *)
Theorem init_new_dictionaries title author date url body origin tags misc h cs st :
  new_Content title author date url body origin tags misc h cs = (Ok (), st) →
  ∃ ls lt src,
    self st = {| _source := VRef ls; _sentiment := VRef lt |} ∧
    ls ≠ lt ∧ h !! ls = None ∧ h !! lt = None ∧
    heap st !! ls = Some (ODict src) ∧
    heap st !! lt = Some (ODict ∅) ∧
    dom src = {[ py "title"; py "author"; py "date"; py "url";
                 py "body"; py "origin"; py "tags"; py "misc" ]} ∧
    src !! py "title" = Some title ∧
    src !! py "url" = Some url ∧
    src !! py "origin" = Some origin ∧
    src !! py "date" = Some (VStr (datetime_str date)) ∧
    calls st = cs ∧
    ∀ l o, h !! l = Some o → heap st !! l = Some o.
Proof.
  intros Hnew.
  destruct (decoded body) as [body'|] eqn:Hbody.
  2: { apply (new_Content_raises title author date url body origin tags misc h cs) in Hbody.
       by rewrite Hnew in Hbody. }
  rewrite (new_Content_returns _ _ _ _ _ _ _ _ _ _ _ Hbody) in Hnew.
  injection Hnew as <-.
  assert (length h ≤ length (init_heap author tags misc h)) as Hlen.
  { unfold init_heap. rewrite !length_app. lia. }
  exists (length (init_heap author tags misc h)), (S (length (init_heap author tags misc h))),
         (constructed_source title author date url origin tags misc h body').
  split; [done|]. split; [lia|].
  split; [apply lookup_ge_None; lia|]. split; [apply lookup_ge_None; lia|].
  split.
  { unfold constructed. cbn [heap]. rewrite lookup_app_r by lia. by rewrite Nat.sub_diag. }
  split.
  { unfold constructed. cbn [heap]. rewrite lookup_app_r by lia.
    by replace (S (length (init_heap author tags misc h))
                - length (init_heap author tags misc h)) with 1 by lia. }
  split.
  { unfold constructed_source. rewrite !dom_insert_L, dom_singleton_L. set_solver. }
  do 4 (split; [reflexivity|]). split; [done|].
  intros l o Hl. by apply constructed_frame.
Qed.

Lemma init_new_dictionaries_example :
  ∃ ls lt src,
    self example = {| _source := VRef ls; _sentiment := VRef lt |} ∧
    ls ≠ lt ∧ example_store !! ls = None ∧ example_store !! lt = None ∧
    heap example !! ls = Some (ODict src) ∧
    heap example !! lt = Some (ODict ∅) ∧
    dom src = {[ py "title"; py "author"; py "date"; py "url";
                 py "body"; py "origin"; py "tags"; py "misc" ]} ∧
    src !! py "title" = Some (VStr (py "Report")) ∧
    src !! py "url" = Some (VStr (py "https://example.org/report")) ∧
    src !! py "origin" = Some (VStr (py "web")) ∧
    src !! py "date" = Some (VStr (datetime_str example_date)) ∧
    calls example = [] ∧
    ∀ l o, example_store !! l = Some o → heap example !! l = Some o.
Proof.
  apply (init_new_dictionaries (VStr (py "Report")) (VStr (py "Ann")) example_date
           (VStr (py "https://example.org/report")) (VBytes (py "Good."))
           (VStr (py "web")) (VRef 0) (VStr (py "")) example_store [] example).
  reflexivity.
Defined.

(** ** [analyse] *)

(** X4. Whatever the client answers, [analyse] on an object within the data
    model, its body text that encodes as UTF-8, calls the client once,
    with the body as plain text, and
    [sentiment] then reads as [overall], the document's score and
    magnitude, and [content], one entry per sentence of the answer in
    order: an empty list for an answer without sentences, no stand-in
    being made up here. *)
Theorem analyse_reads_response client st src dt body encoded r :
  source_is st src →
  src !! py "body" = Some (VStr body) →
  utf8.encode body = Some encoded →
  sentiment_is st dt →
  dom dt ⊆ {[py "overall"; py "content"]} →
  lang.analyze_sentiment client (text_document body) = Ok r →
  ∃ st',
    analyse client st = (Ok (), st') ∧
    calls st' = calls st ++ [lang.AnalyzeSentiment (text_document body)] ∧
    denotes (heap st') (_sentiment (self st'))
      (TDict {[ py "overall" := overall_tree r;
                py "content" := TList (sentence_tree <$> lang.sentences r) ]}) ∧
    (lang.sentences r = [] →
     ∃ c, item (heap st') (_sentiment (self st')) (py "content") = Some (VRef c)
          ∧ heap st' !! c = Some (OList [])).
Proof.
  intros (ls & Hsource & Hsrc) Hbody Henc (lt & Hsentiment & Hdt) Hdom Hr.
  assert (lt < length (heap st)) as Hlt by by eapply lookup_lt_Some.
  pose proof (Document_content_text _ _ Henc) as Hcontent.
  exists (analysed lt dt (text_document body) r st).
  split; [eapply analyse_returns; eauto|]. split; [done|].
  rewrite analysed_self by done. rewrite Hsentiment.
  split; [by apply analysed_denotes|].
  intros Hnone. exists (S (length (heap st))). cbn [item].
  rewrite (analysed_sentiment lt dt (text_document body) r st Hlt), lookup_insert_eq.
  split; [done|].
  rewrite (analysed_content lt dt (text_document body) r st) by done.
  by rewrite Hnone.
Qed.

Lemma analyse_reads_response_example :
  ∃ st',
    analyse speechless example = (Ok (), st') ∧
    calls st' = calls example ++ [lang.AnalyzeSentiment (text_document (py "Good."))] ∧
    denotes (heap st') (_sentiment (self st'))
      (TDict {[ py "overall" := overall_tree no_sentence;
                py "content" := TList (sentence_tree <$> lang.sentences no_sentence) ]}) ∧
    (lang.sentences no_sentence = [] →
     ∃ c, item (heap st') (_sentiment (self st')) (py "content") = Some (VRef c)
          ∧ heap st' !! c = Some (OList [])).
Proof.
  eapply (analyse_reads_response speechless example _ ∅ (py "Good.") (py "Good.")
            no_sentence).
  - exists 3. split; reflexivity.
  - reflexivity.
  - reflexivity.
  - exists 4. split; reflexivity.
  - rewrite dom_empty_L. apply empty_subseteq.
  - reflexivity.
Defined.

(** X5. When [analyse] raises, on any object of the class, it has changed
    nothing: slots and store are as they were.  Either it has not called
    the client, or it has called it once and raises what the call raised. *)
Theorem analyse_fails_clean client st e st' :
  slots_are_dicts st →
  analyse client st = (Raise e, st') →
  self st' = self st ∧
  heap st' = heap st ∧
  (calls st' = calls st
   ∨ ∃ document, calls st' = calls st ++ [lang.AnalyzeSentiment document]
                 ∧ lang.analyze_sentiment client document = Raise e).
Proof.
  intros Hinv Hrun.
  destruct (getitem_cases (_source (self st)) (py "body") st)
    as [(ls & src & body & Hsource & Hls & Hbody & Hget)|[e' Hget]]; last first.
  { unfold analyse in Hrun. erewrite bind_ok in Hrun; last done.
    erewrite bind_raise in Hrun; last done. injection Hrun as <- <-. auto. }
  destruct (Document_new_cases body lang.PLAIN_TEXT st)
    as [(content & Hcontent & Hdoc)|[e' Hdoc]]; last first.
  { unfold analyse in Hrun. erewrite bind_ok in Hrun; last done.
    erewrite bind_ok in Hrun; last done.
    erewrite bind_raise in Hrun; last done. injection Hrun as <- <-. auto. }
  destruct (lang.analyze_sentiment client
              {| lang.content := content; lang.type := lang.PLAIN_TEXT |}) as [r|e'] eqn:Hr.
  - destruct Hinv as [_ Hsent]. unfold is_dict in Hsent.
    destruct (_sentiment (self st)) as [| | | | | |lt] eqn:Hsentiment; try done.
    destruct (heap st !! lt) as [[dt|]|] eqn:Hdt; try done.
    by erewrite analyse_returns in Hrun.
  - erewrite analyse_raises in Hrun; [|done..]. injection Hrun as <- <-.
    split; [done|]. split; [done|]. right. by eexists.
Qed.

Lemma analyse_fails_clean_example :
  self (snd (analyse unavailable example)) = self example ∧
  heap (snd (analyse unavailable example)) = heap example ∧
  (calls (snd (analyse unavailable example)) = calls example
   ∨ ∃ document,
       calls (snd (analyse unavailable example))
       = calls example ++ [lang.AnalyzeSentiment document]
       ∧ lang.analyze_sentiment unavailable document = Raise (ServiceError (py "unavailable"))).
Proof.
  apply (analyse_fails_clean unavailable example (ServiceError (py "unavailable"))).
  - split; reflexivity.
  - reflexivity.
Defined.

(** ** [classify] *)

(** X6. When [classify] raises, on any object of the class, the slots
    have not changed and neither has any object that was in the store: the
    entries of [sentiment], categories of an earlier run among them, read
    as before.  (It may have called the client by then.) *)
Theorem classify_fails_clean client st e st' :
  slots_are_dicts st →
  classify client st = (Raise e, st') →
  self st' = self st ∧
  (∀ l o, heap st !! l = Some o → heap st' !! l = Some o) ∧
  (∀ c, path (heap st) (_sentiment (self st)) [py "overall"; py "categories"] = Some c →
        path (heap st') (_sentiment (self st')) [py "overall"; py "categories"] = Some c).
Proof.
  intros Hinv Hrun.
  destruct (classify_cases client st Hinv)
    as [(? & ? & ? & ? & ? & ? & ? & ? & ? & _ & _ & _ & _ & _ & _ & _ & _ & _ & Hok)
       |(e' & st'' & Hraise & Hself & extra & Hheap)].
  { by rewrite Hok in Hrun. }
  rewrite Hraise in Hrun. injection Hrun as -> ->.
  assert (∀ l o, heap st !! l = Some o → heap st' !! l = Some o) as Hkept.
  { intros l o Hl. rewrite Hheap. by apply lookup_app_l_Some. }
  split; [done|]. split; [done|].
  intros c Hc. rewrite Hself. unfold path, item in *.
  destruct (_sentiment (self st)) as [| | | | | |lt]; try done.
  destruct (heap st !! lt) as [[dt|]|] eqn:Hdt; try done.
  rewrite (Hkept _ _ Hdt).
  destruct (dt !! py "overall") as [[| | | | | |lo]|]; try done.
  cbn [mbind option_bind] in *.
  destruct (heap st !! lo) as [[ov|]|] eqn:Hlo; try done.
  by rewrite (Hkept _ _ Hlo).
Qed.

(** The classified object, with a client out of reach. *)
Lemma classify_fails_clean_example :
  self (snd (classify unavailable example_classified)) = self example_classified ∧
  (∀ l o, heap example_classified !! l = Some o →
          heap (snd (classify unavailable example_classified)) !! l = Some o) ∧
  (∀ c, path (heap example_classified) (_sentiment (self example_classified))
          [py "overall"; py "categories"] = Some c →
        path (heap (snd (classify unavailable example_classified)))
          (_sentiment (self (snd (classify unavailable example_classified))))
          [py "overall"; py "categories"] = Some c).
Proof.
  apply (classify_fails_clean unavailable example_classified
           (ServiceError (py "unavailable"))).
  - split; reflexivity.
  - reflexivity.
Defined.

(** ** [analyse], then [classify] *)

(** New objects change no reading. *)
Lemma denotes_app h h' : ∀ v t, denotes h v t → denotes (h ++ h') v t.
Proof.
  fix IH 3. intros v t [| | | | | |l vs ts Hl Hvs|l d td Hl Hd]; try by constructor.
  - eapply denotes_List; [by apply lookup_app_l_Some|].
    clear Hl. induction Hvs as [|x y xs ys Hxy Hrest IHrest]; [constructor|].
    constructor; [by apply IH|done].
  - eapply denotes_Dict; [by apply lookup_app_l_Some|].
    intros k. destruct (Hd k); constructor. by apply IH.
Qed.

(** The tree under [overall] once both methods have been through. *)
Lemma denotes_overall_classified h lo r1 lc ts :
  h !! lo = Some (ODict (<[py "categories" := VRef lc]> (overall_entry r1))) →
  denotes h (VRef lc) (TList ts) →
  denotes h (VRef lo)
    (TDict {[ py "score" := TFloat (lang.score (lang.document_sentiment r1));
              py "magnitude" := TFloat (lang.magnitude (lang.document_sentiment r1));
              py "categories" := TList ts ]}).
Proof.
  intros Hlo Hlc. eapply denotes_Dict; [done|]. intros k. unfold overall_entry.
  destruct (decide (k = py "categories")) as [->|Hk].
  { rewrite lookup_insert_eq.
    rewrite lookup_insert_ne by by cbv. rewrite lookup_insert_ne by by cbv.
    rewrite lookup_singleton_eq. by constructor. }
  rewrite lookup_insert_ne by done.
  destruct (decide (k = py "score")) as [->|Hs].
  { rewrite !lookup_insert_eq. repeat constructor. }
  rewrite !(lookup_insert_ne _ (py "score")) by done.
  destruct (decide (k = py "magnitude")) as [->|Hm].
  { rewrite lookup_singleton_eq, lookup_insert_eq. repeat constructor. }
  rewrite lookup_singleton_ne by done. rewrite lookup_insert_ne by done.
  rewrite lookup_singleton_ne by done. constructor.
Qed.

Lemma analysed_classified_denotes lt dt d1 d2 r1 r2 st :
  heap st !! lt = Some (ODict dt) →
  dom dt ⊆ {[py "overall"; py "content"]} →
  denotes
    (heap (classified (length (heap st)) (overall_entry r1) d2 r2 (analysed lt dt d1 r1 st)))
    (VRef lt)
    (TDict {[ py "overall" :=
                TDict {[ py "score" := TFloat (lang.score (lang.document_sentiment r1));
                         py "magnitude" := TFloat (lang.magnitude (lang.document_sentiment r1));
                         py "categories" := TList (category_trees r2) ]};
              py "content" := TList (sentence_tree <$> lang.sentences r1) ]}).
Proof.
  intros Hdt Hdom.
  assert (lt < length (heap st)) as Hlt by by eapply lookup_lt_Some.
  set (n := length (heap st)).
  set (st1 := analysed lt dt d1 r1 st).
  pose proof (analysed_sentiment lt dt d1 r1 st Hlt) as Hsent. fold st1 n in Hsent.
  pose proof (analysed_overall lt dt d1 r1 st Hlt) as Hov. fold st1 n in Hov.
  pose proof (analysed_content lt dt d1 r1 st) as Hcont. fold st1 n in Hcont.
  pose proof (analysed_entry lt dt d1 r1 st) as Hentry. fold st1 n in Hentry.
  assert (n < length (heap st1)) as Hn by by eapply lookup_lt_Some.
  assert (∀ l o, l ≠ n → heap st1 !! l = Some o →
                 heap (classified n (overall_entry r1) d2 r2 st1) !! l = Some o) as Hframe.
  { intros l o Hne Hl. rewrite classified_frame; [done|done| |done].
    by eapply lookup_lt_Some. }
  eapply denotes_Dict; [apply Hframe; [lia|done]|].
  intros k.
  destruct (decide (k = py "content")) as [->|Hc].
  { rewrite lookup_insert_eq, lookup_insert_ne by apply key_overall_content.
    rewrite lookup_singleton_eq. constructor.
    eapply denotes_List; [apply Hframe; [lia|by apply Hcont]|].
    apply Forall2_fmap_r.
    eapply (Forall2_refs_from _ _ (ODict ∘ sentence_entry)).
    - intros i s Hi. apply Hframe; [lia|]. by apply Hentry.
    - intros l s Hl. by apply denotes_sentence_entry. }
  rewrite lookup_insert_ne by done.
  destruct (decide (k = py "overall")) as [->|Ho].
  { rewrite !lookup_insert_eq. constructor.
    eapply denotes_overall_classified; [by apply classified_overall|].
    by apply classified_denotes. }
  rewrite !lookup_insert_ne by done. rewrite lookup_singleton_ne by done.
  replace (dt !! k) with (@None value); [constructor|].
  symmetry. apply not_elem_of_dom. intros Hk%Hdom.
  by apply elem_of_union in Hk as [->%elem_of_singleton | ->%elem_of_singleton].
Qed.

(** X7. From source to result: on an object within the data model, whose
    body is text that encodes as UTF-8, and with a client that answers
    both calls, [jsonify] with [automagic] calls the client twice, first
    for the sentiment of the text and then for the categories of its
    encoding, and returns a new mapping of [source] and [sentiment] to the
    object's own two dictionaries.  The source reads as before, and
    [sentiment] as [overall], with score, magnitude and the categories,
    and [content], one entry per sentence. *)
Theorem jsonify_automagic_result client st src dt body encoded r1 r2 :
  source_is st src →
  src !! py "body" = Some (VStr body) →
  utf8.encode body = Some encoded →
  sentiment_is st dt →
  dom dt ⊆ {[py "overall"; py "content"]} →
  lang.analyze_sentiment client (text_document body) = Ok r1 →
  lang.classify_text client (bytes_document encoded) = Ok r2 →
  ∃ m st',
    jsonify client true st = (Ok (VRef m), st') ∧
    calls st' = calls st ++ [lang.AnalyzeSentiment (text_document body);
                             lang.ClassifyText (bytes_document encoded)] ∧
    self st' = self st ∧
    heap st !! m = None ∧
    heap st' !! m = Some (ODict {[ py "source" := _source (self st);
                                   py "sentiment" := _sentiment (self st) ]}) ∧
    source_is st' src ∧
    denotes (heap st') (_sentiment (self st'))
      (TDict {[ py "overall" :=
                  TDict {[ py "score" := TFloat (lang.score (lang.document_sentiment r1));
                           py "magnitude" := TFloat (lang.magnitude (lang.document_sentiment r1));
                           py "categories" := TList (category_trees r2) ]};
                py "content" := TList (sentence_tree <$> lang.sentences r1) ]}).
Proof.
  intros (ls & Hsource & Hsrc) Hbody Henc (lt & Hsentiment & Hdt) Hdom Hr1 Hr2.
  assert (lt < length (heap st)) as Hlt by by eapply lookup_lt_Some.
  assert (ls < length (heap st)) as Hls by by eapply lookup_lt_Some.
  assert (ls ≠ lt) as Hne.
  { intros ->. assert (src = dt) as -> by congruence.
    assert (py "body" ∈ dom dt) as Hin%Hdom by by apply elem_of_dom.
    by apply elem_of_union in Hin as [Hin%elem_of_singleton | Hin%elem_of_singleton]. }
  set (n := length (heap st)).
  set (st1 := analysed lt dt (text_document body) r1 st).
  set (st2 := classified n (overall_entry r1) (bytes_document encoded) r2 st1).
  pose proof (analysed_sentiment lt dt (text_document body) r1 st Hlt) as Hsent1.
  pose proof (analysed_overall lt dt (text_document body) r1 st Hlt) as Hov1.
  fold st1 n in Hsent1, Hov1.
  assert (heap st1 !! ls = Some (ODict src)) as Hsrc1.
  { subst st1. by rewrite analysed_frame. }
  assert (n < length (heap st1)) as Hn by by eapply lookup_lt_Some.
  assert (analyse client st = (Ok (), st1)) as Hrun1.
  { eapply analyse_returns; eauto. by eapply Document_content_text. }
  assert (classify client st1 = (Ok (), st2)) as Hrun2.
  { eapply (classify_returns client st1 ls lt src _ body encoded); eauto.
    by rewrite lookup_insert_ne, lookup_insert_eq by (symmetry; apply key_overall_content). }
  assert (heap st2 !! ls = Some (ODict src)) as Hsrc2.
  { subst st2. rewrite classified_frame; [done|done| |lia].
    by eapply lookup_lt_Some. }
  exists (length (heap st2)),
         (with_heap (heap st2 ++ [ODict {[ py "source" := _source (self st);
                                           py "sentiment" := _sentiment (self st) ]}]) st2).
  split.
  { unfold jsonify. erewrite bind_ok; last first.
    { erewrite bind_ok; last exact Hrun1. exact Hrun2. }
    done. }
  split; [by (simpl; rewrite <- app_assoc)|].
  split; [done|].
  split.
  { apply lookup_ge_None.
    pose proof (classified_overall n (overall_entry r1) (bytes_document encoded) r2 st1 Hn)
      as Hlen%lookup_lt_Some.
    fold st2 in Hlen. subst n. lia. }
  split; [simpl; rewrite lookup_app_r by lia; by rewrite Nat.sub_diag|].
  split.
  { exists ls. split; [done|]. simpl. by apply lookup_app_l_Some. }
  simpl. rewrite Hsentiment. apply denotes_app.
  exact (analysed_classified_denotes lt dt (text_document body) (bytes_document encoded)
           r1 r2 st Hdt Hdom).
Qed.

Lemma jsonify_automagic_result_example :
  ∃ m st',
    jsonify mock_topics true example = (Ok (VRef m), st') ∧
    calls st' = calls example ++ [lang.AnalyzeSentiment (text_document (py "Good."));
                                  lang.ClassifyText (bytes_document (py "Good."))] ∧
    self st' = self example ∧
    heap example !! m = None ∧
    heap st' !! m = Some (ODict {[ py "source" := _source (self example);
                                   py "sentiment" := _sentiment (self example) ]}) ∧
    source_is st' (default ∅ (match heap example !! 3 with
                              | Some (ODict d) => Some d
                              | _ => None
                              end)) ∧
    denotes (heap st') (_sentiment (self st'))
      (TDict {[ py "overall" :=
                  TDict {[ py "score" := TFloat (lang.score (lang.document_sentiment good_response));
                           py "magnitude" :=
                             TFloat (lang.magnitude (lang.document_sentiment good_response));
                           py "categories" := TList (category_trees two_topics) ]};
                py "content" := TList (sentence_tree <$> lang.sentences good_response) ]}).
Proof.
  apply (jsonify_automagic_result mock_topics example _ ∅ (py "Good.") (py "Good.")
           good_response two_topics).
  - exists 3. split; reflexivity.
  - reflexivity.
  - reflexivity.
  - exists 4. split; reflexivity.
  - rewrite dom_empty_L. apply empty_subseteq.
  - reflexivity.
  - reflexivity.
Defined.

(** ** The body *)

(** X8. Without a [body] in the source, [analyse] and [jsonify] with
    [automagic] raise [KeyError] for it; they have then called nothing and
    changed nothing. *)
Theorem analyse_without_body client st src :
  source_is st src →
  src !! py "body" = None →
  analyse client st = (Raise (KeyError (py "body")), st) ∧
  jsonify client true st = (Raise (KeyError (py "body")), st).
Proof.
  intros (ls & Hsource & Hsrc) Hbody.
  assert (analyse client st = (Raise (KeyError (py "body")), st)) as Hrun.
  { unfold analyse. erewrite bind_ok; last done. rewrite Hsource.
    erewrite bind_raise; first done. by eapply getitem_missing. }
  split; [done|].
  unfold jsonify. erewrite bind_raise; first done. by erewrite bind_raise.
Qed.

Lemma analyse_without_body_example :
  analyse mock example_emptied = (Raise (KeyError (py "body")), example_emptied) ∧
  jsonify mock true example_emptied = (Raise (KeyError (py "body")), example_emptied).
Proof.
  apply (analyse_without_body mock example_emptied ∅).
  - exists 5. split; reflexivity.
  - reflexivity.
Defined.

(** X9. [classify] encodes the body before it does anything else.  When
    the source has no body, or one that is no text (bytes put there
    through the setter, [None], a number, a list), or text with a lone
    surrogate in it, [classify] raises [KeyError], [AttributeError] or
    [UnicodeEncodeError]; it has then called nothing and changed
    nothing. *)
Theorem classify_unfit_body client st src :
  source_is st src →
  (∀ s, src !! py "body" = Some (VStr s) → utf8.encode s = None) →
  classify client st
  = (Raise match src !! py "body" with
           | None => KeyError (py "body")
           | Some (VStr _) => UnicodeEncodeError
           | Some _ => AttributeError
           end, st).
Proof.
  intros (ls & Hsource & Hsrc) Hunfit. unfold classify.
  erewrite bind_ok; last done. rewrite Hsource.
  destruct (src !! py "body") as [body|] eqn:Hbody; last first.
  { erewrite bind_raise; first done. by eapply getitem_missing. }
  erewrite bind_ok; last by eapply getitem_ok.
  erewrite bind_raise; first done.
  destruct body as [| | | |s| |]; try done.
  unfold encode. by rewrite (Hunfit s eq_refl).
Qed.

Lemma classify_unfit_body_example :
  classify mock example_surrogate = (Raise UnicodeEncodeError, example_surrogate) ∧
  classify mock example_bodiless = (Raise AttributeError, example_bodiless) ∧
  classify mock example_emptied = (Raise (KeyError (py "body")), example_emptied).
Proof.
  pose (src := constructed_source (VStr (py "Report")) (VStr (py "Ann")) example_date
                 (VStr (py "https://example.org/report")) (VStr (py "web"))
                 (VRef 0) (VStr (py "")) example_store).
  split; [|split].
  - apply (classify_unfit_body mock example_surrogate (src (VStr [0xD800%Z]))).
    + exists 3. split; reflexivity.
    + intros s [= <-]. reflexivity.
  - apply (classify_unfit_body mock example_bodiless (src VNone)).
    + exists 3. split; reflexivity.
    + intros s [=].
  - refine (classify_unfit_body mock example_emptied ∅ _ _).
    + exists 5. split; reflexivity.
    + intros s [=].
Defined.

(** X10. The bytes given as [body] come back: an object made with a body
    of bytes stores their text, [analyse] sends the client that text, and
    [classify] sends it the very bytes the constructor was given, whether
    the client then answers or not. *)
Theorem bytes_body_round_trip client title author date url b origin tags misc h cs st :
  new_Content title author date url (VBytes b) origin tags misc h cs = (Ok (), st) →
  ∃ s,
    utf8.decode b = Some s ∧
    item (heap st) (_source (self st)) (py "body") = Some (VStr s) ∧
    calls (snd (analyse client st)) = cs ++ [lang.AnalyzeSentiment (text_document s)] ∧
    calls (snd (classify client st)) = cs ++ [lang.ClassifyText (bytes_document b)].
Proof.
  intros Hnew.
  destruct (utf8.decode b) as [s|] eqn:Hdec; last first.
  { assert (decoded (VBytes b) = None) as Hnone by (simpl; by rewrite Hdec).
    apply (new_Content_raises title author date url _ origin tags misc h cs) in Hnone.
    by rewrite Hnew in Hnone. }
  assert (decoded (VBytes b) = Some (VStr s)) as Hbody by (simpl; by rewrite Hdec).
  rewrite (new_Content_returns _ _ _ _ _ _ _ _ _ _ _ Hbody) in Hnew.
  injection Hnew as <-.
  destruct (constructed_source_is title author date url origin tags misc h cs (VStr s))
    as (ls & Hsource & Hsrc).
  destruct (constructed_sentiment_is title author date url origin tags misc h cs (VStr s))
    as (lt & Hsentiment & Hdt).
  assert (constructed_source title author date url origin tags misc h (VStr s) !! py "body"
          = Some (VStr s)) as Hget by done.
  pose proof (utf8_decode_encode _ _ Hdec) as Henc.
  exists s. split; [done|]. split.
  { unfold item. by rewrite Hsource, Hsrc. }
  split.
  - destruct (lang.analyze_sentiment client (text_document s)) as [r|e] eqn:Hr.
    + erewrite analyse_returns; eauto. by eapply Document_content_text.
    + erewrite analyse_raises; eauto. by eapply Document_content_text.
  - destruct (lang.classify_text client (bytes_document b)) as [r|e] eqn:Hr.
    + by erewrite classify_missing_overall.
    + by erewrite classify_raises.
Qed.

Lemma bytes_body_round_trip_example :
  ∃ s,
    utf8.decode (py "Good.") = Some s ∧
    item (heap example) (_source (self example)) (py "body") = Some (VStr s) ∧
    calls (snd (analyse mock example)) = [] ++ [lang.AnalyzeSentiment (text_document s)] ∧
    calls (snd (classify mock example))
    = [] ++ [lang.ClassifyText (bytes_document (py "Good."))].
Proof.
  apply (bytes_body_round_trip mock (VStr (py "Report")) (VStr (py "Ann")) example_date
           (VStr (py "https://example.org/report")) (py "Good.")
           (VStr (py "web")) (VRef 0) (VStr (py "")) example_store []).
  reflexivity.
Defined.

(** X11. Text or its encoding, the object is the same: a body given as the
    UTF-8 encoding of a text makes the constructor leave exactly the
    object, and the store, that the text itself makes it leave. *)
Theorem init_text_or_its_encoding title author date url s b origin tags misc h cs :
  utf8.encode s = Some b →
  new_Content title author date url (VBytes b) origin tags misc h cs
  = new_Content title author date url (VStr s) origin tags misc h cs.
Proof.
  intros Hdec%utf8_encode_decode.
  rewrite (new_Content_returns _ _ _ _ (VBytes b) _ _ _ _ _ (VStr s))
    by (simpl; by rewrite Hdec).
  by rewrite (new_Content_returns _ _ _ _ (VStr s) _ _ _ _ _ (VStr s)).
Qed.

Lemma init_text_or_its_encoding_example :
  example_new
  = new_Content (VStr (py "Report")) (VStr (py "Ann")) example_date
      (VStr (py "https://example.org/report")) (VStr (py "Good."))
      (VStr (py "web")) (VRef 0) (VStr (py "")) example_store [].
Proof.
  apply (init_text_or_its_encoding (VStr (py "Report")) (VStr (py "Ann")) example_date
           (VStr (py "https://example.org/report")) (py "Good.") (py "Good.")).
  reflexivity.
Defined.

(** ** [jsonify], half way *)

(** X12. [jsonify] with [automagic] does not undo what it has done: when
    the client answers the first call and fails at the second, [jsonify]
    raises what the client raised and returns no mapping, but the object
    has been analysed.  [sentiment] then reads as the [overall] and
    [content] of the answer, without categories. *)
Theorem jsonify_automagic_keeps_analysis client st src dt body encoded r e :
  source_is st src →
  src !! py "body" = Some (VStr body) →
  utf8.encode body = Some encoded →
  sentiment_is st dt →
  dom dt ⊆ {[py "overall"; py "content"]} →
  lang.analyze_sentiment client (text_document body) = Ok r →
  lang.classify_text client (bytes_document encoded) = Raise e →
  ∃ st',
    jsonify client true st = (Raise e, st') ∧
    calls st' = calls st ++ [lang.AnalyzeSentiment (text_document body);
                             lang.ClassifyText (bytes_document encoded)] ∧
    self st' = self st ∧
    denotes (heap st') (_sentiment (self st'))
      (TDict {[ py "overall" := overall_tree r;
                py "content" := TList (sentence_tree <$> lang.sentences r) ]}).
Proof.
  intros (ls & Hsource & Hsrc) Hbody Henc (lt & Hsentiment & Hdt) Hdom Hr He.
  assert (lt < length (heap st)) as Hlt by by eapply lookup_lt_Some.
  assert (ls < length (heap st)) as Hls by by eapply lookup_lt_Some.
  assert (ls ≠ lt) as Hne.
  { intros ->. assert (src = dt) as -> by congruence.
    assert (py "body" ∈ dom dt) as Hin%Hdom by by apply elem_of_dom.
    by apply elem_of_union in Hin as [Hin%elem_of_singleton | Hin%elem_of_singleton]. }
  set (st1 := analysed lt dt (text_document body) r st).
  assert (heap st1 !! ls = Some (ODict src)) as Hsrc1.
  { subst st1. by rewrite analysed_frame. }
  assert (analyse client st = (Ok (), st1)) as Hrun1.
  { eapply analyse_returns; eauto. by eapply Document_content_text. }
  assert (classify client st1
          = (Raise e, with_call (lang.ClassifyText (bytes_document encoded)) st1)) as Hrun2.
  { by eapply (classify_raises client st1 ls src body encoded). }
  exists (with_call (lang.ClassifyText (bytes_document encoded)) st1).
  split.
  { unfold jsonify. erewrite bind_raise; first done.
    erewrite bind_ok; last exact Hrun1. exact Hrun2. }
  split; [by (simpl; rewrite <- app_assoc)|].
  split; [done|].
  simpl. rewrite Hsentiment.
  exact (analysed_denotes lt dt (text_document body) r st Hdt Hdom).
Qed.

Lemma jsonify_automagic_keeps_analysis_example :
  ∃ st',
    jsonify half_way true example = (Raise (ServiceError (py "unavailable")), st') ∧
    calls st' = calls example ++ [lang.AnalyzeSentiment (text_document (py "Good."));
                                  lang.ClassifyText (bytes_document (py "Good."))] ∧
    self st' = self example ∧
    denotes (heap st') (_sentiment (self st'))
      (TDict {[ py "overall" := overall_tree good_response;
                py "content" := TList (sentence_tree <$> lang.sentences good_response) ]}).
Proof.
  eapply (jsonify_automagic_keeps_analysis half_way example _ ∅ (py "Good.") (py "Good.")
           good_response (ServiceError (py "unavailable"))).
  - exists 3. split; reflexivity.
  - reflexivity.
  - reflexivity.
  - exists 4. split; reflexivity.
  - rewrite dom_empty_L. apply empty_subseteq.
  - reflexivity.
  - reflexivity.
Defined.

(** ** The calls to the client *)

Lemma quiet_ret {A} (a : A) : quiet (mret a).
Proof. by intros st. Qed.

Lemma quiet_raise {A} e : quiet (@raise A e).
Proof. by intros st. Qed.

Lemma quiet_bind {A B} (m : M A) (f : A → M B) :
  quiet m → (∀ a, quiet (f a)) → quiet (m ≫= f).
Proof.
  intros Hm Hf st. specialize (Hm st). unfold mbind, M_bind.
  destruct (m st) as [[a|e] st1]; [|done]. simpl in Hm. by rewrite Hf.
Qed.

Lemma quiet_if {A} (b : bool) (m1 m2 : M A) :
  quiet m1 → quiet m2 → quiet (if b then m1 else m2).
Proof. by destruct b. Qed.

Lemma quiet_for_each {A} (xs : list A) (body : A → M ()) :
  (∀ x, quiet (body x)) → quiet (for_each xs body).
Proof.
  intros Hbody. induction xs as [|x xs IH]; [apply quiet_ret|].
  apply quiet_bind; auto.
Qed.

Lemma quiet_alloc o : quiet (alloc o).
Proof. by intros st. Qed.

Lemma quiet_getitem v k : quiet (getitem v k).
Proof.
  intros st. unfold getitem.
  destruct v as [| | | | | |l]; try done.
  destruct (heap st !! l) as [[d|xs]|]; try done. by destruct (d !! k).
Qed.

Lemma quiet_setitem v k x : quiet (setitem v k x).
Proof.
  intros st. unfold setitem.
  destruct v as [| | | | | |l]; try done.
  by destruct (heap st !! l) as [[d|xs]|].
Qed.

Lemma quiet_getattr_append v : quiet (getattr_append v).
Proof.
  intros st. unfold getattr_append.
  destruct v as [| | | | | |l]; try done.
  by destruct (heap st !! l) as [[d|xs]|].
Qed.

Lemma quiet_call_append l x : quiet (call_append l x).
Proof. intros st. unfold call_append. by destruct (heap st !! l) as [[d|xs]|]. Qed.

Lemma quiet_len v : quiet (len v).
Proof.
  intros st. unfold len.
  destruct v as [| | | | | |l]; try done.
  by destruct (heap st !! l) as [[d|xs]|].
Qed.

Lemma quiet_source : quiet source.
Proof. by intros st. Qed.

Lemma quiet_sentiment : quiet sentiment.
Proof. by intros st. Qed.

#[local] Hint Resolve quiet_ret quiet_raise quiet_alloc quiet_getitem quiet_setitem
  quiet_getattr_append quiet_call_append quiet_len quiet_source quiet_sentiment : quiet.
#[local] Hint Extern 1 (quiet (_ ≫= _)) => apply quiet_bind; [|intros ?] : quiet.
#[local] Hint Extern 1 (quiet (if _ then _ else _)) => apply quiet_if : quiet.
#[local] Hint Extern 1 (quiet (for_each _ _)) => apply quiet_for_each; intros ? : quiet.

(** What follows a quiet rest adds no call. *)
Lemma calls_bind_quiet {A B} (m : M A) (f : A → M B) st :
  (∀ a, quiet (f a)) → calls (snd ((m ≫= f) st)) = calls (snd (m st)).
Proof.
  intros Hf. unfold mbind, M_bind. destruct (m st) as [[a|e] st']; [apply Hf|done].
Qed.

(** X13. One call each, at most, and to its own service: from any state,
    [analyse] either calls nothing or calls [analyze_sentiment] once, with
    the plain-text document made of the body of the source, whose content
    is that body, or the empty text for a body of [None]; [classify]
    either calls nothing or calls [classify_text] once, with the UTF-8
    encoding of the body; neither calls the other's service, and neither
    calls again after the answer. *)
Theorem one_call_each client st :
  (calls (snd (analyse client st)) = calls st
   ∨ ∃ body content,
       item (heap st) (_source (self st)) (py "body") = Some body ∧
       Document_content body = Ok content ∧
       content = match body with VNone => VStr [] | _ => body end ∧
       calls (snd (analyse client st))
       = calls st ++ [lang.AnalyzeSentiment
                        {| lang.content := content; lang.type := lang.PLAIN_TEXT |}]) ∧
  (calls (snd (classify client st)) = calls st
   ∨ ∃ body encoded,
       item (heap st) (_source (self st)) (py "body") = Some (VStr body) ∧
       utf8.encode body = Some encoded ∧
       calls (snd (classify client st))
       = calls st ++ [lang.ClassifyText (bytes_document encoded)]).
Proof.
  split.
  - unfold analyse. erewrite bind_ok; last done.
    destruct (getitem_cases (_source (self st)) (py "body") st)
      as [(ls & src & body & Hsource & Hls & Hbody & Hget)|[e Hget]]; last first.
    { left. by erewrite bind_raise. }
    erewrite bind_ok; last done.
    destruct (Document_new_cases body lang.PLAIN_TEXT st)
      as [(content & Hcontent & Hdoc)|[e Hdoc]]; last first.
    { left. by erewrite bind_raise. }
    erewrite bind_ok; last done.
    right. exists body, content. split; [unfold item; by rewrite Hsource, Hls|].
    split; [done|]. split.
    { destruct body as [| | | |s|b|]; try done; simpl in Hcontent.
      - by injection Hcontent as <-.
      - destruct (utf8.encode s); [by injection Hcontent as <-|done].
      - destruct (utf8.decode b); [by injection Hcontent as <-|done]. }
    rewrite calls_bind_quiet; [done|].
    intros r. unfold sentiment_content. auto 30 with quiet.
  - unfold classify. erewrite bind_ok; last done.
    destruct (getitem_cases (_source (self st)) (py "body") st)
      as [(ls & src & body & Hsource & Hls & Hbody & Hget)|[e Hget]]; last first.
    { left. by erewrite bind_raise. }
    erewrite bind_ok; last done.
    destruct (encode_cases body st) as [(s & encoded & -> & Henc & Hrun)|[e Hrun]];
      last first.
    { left. by erewrite bind_raise. }
    erewrite bind_ok; last done.
    erewrite bind_ok; last by eapply Document_new_ok, Document_content_bytes, utf8_encode_decode.
    right. exists s, encoded. split; [unfold item; by rewrite Hsource, Hls|].
    split; [done|].
    rewrite calls_bind_quiet; [done|].
    intros r. unfold overall_categories. auto 40 with quiet.
Qed.
